(** * Verification of [core/settings.py] (bangladesh-location-api)

    The settings module is a straight-line Python script: it reads the
    process environment, prints warnings, calls a few library functions
    and binds module-level names.  This development embeds that script
    as a function from the environment (and the outcomes of the library
    calls it makes) to the printed lines plus either the exception that
    aborted the import or the final namespace of settings.

    Constant tables that no derivation depends on (INSTALLED_APPS,
    MIDDLEWARE, TEMPLATES, validators, REST and schema options) are not
    part of the embedding. *)

From Stdlib Require Import ZArith NArith List Ascii String Bool Lia.
From stdpp Require Import base option list gmap.

(** ** Python strings and the two [str] methods the module uses *)

Module Py.

(** A Python [str] is a sequence of Unicode code points. *)
Abbreviation str := (list N).

(** String literals of the source, as code-point sequences. *)
Definition lit (s : string) : str :=
  (fun a => N_of_ascii a) <$> list_ascii_of_string s.

Definition comma : N := 44%N.

(** [str.isspace] on one code point: the characters [str.strip()]
    removes when called without an argument. *)
Definition isspace (c : N) : bool :=
  ((9 <=? c) && (c <=? 13) || (28 <=? c) && (c <=? 32)
   || (c =? 133) || (c =? 160) || (c =? 5760)
   || (8192 <=? c) && (c <=? 8202)
   || (c =? 8232) || (c =? 8233) || (c =? 8239) || (c =? 8287)
   || (c =? 12288))%N.

Fixpoint lstrip (s : str) : str :=
  match s with
  | [] => []
  | c :: rest => if isspace c then lstrip rest else s
  end.

Definition rstrip (s : str) : str := rev (lstrip (rev s)).

(** [s.strip()] *)
Definition strip (s : str) : str := rstrip (lstrip s).

(** [s.split(sep)] for a one-character separator: always at least one
    piece, and [n] separators give [n + 1] pieces. *)
Fixpoint split (sep : N) (s : str) : list str :=
  match s with
  | [] => [[]]
  | c :: rest =>
      if (c =? sep)%N then [] :: split sep rest
      else match split sep rest with
           | [] => [[c]]
           | piece :: pieces => (c :: piece) :: pieces
           end
  end.

(** [sep.join(pieces)], the inverse of [split]. *)
Fixpoint join (sep : N) (pieces : list str) : str :=
  match pieces with
  | [] => []
  | [piece] => piece
  | piece :: rest => piece ++ sep :: join sep rest
  end.

(** The values a module-level name of this script can hold besides
    lists and booleans: [os.getenv] yields [None], a [str], or whatever
    default was passed (an [int] for EMAIL_PORT). *)
Inductive value : Type :=
  | PyNone
  | PyStr (s : str)
  | PyInt (n : Z).

Definition value_eqb (a b : value) : bool :=
  match a, b with
  | PyNone, PyNone => true
  | PyStr s, PyStr t => bool_decide (s = t)
  | PyInt n, PyInt m => (n =? m)%Z
  | _, _ => false
  end.

(** Truth value of an object, as [if x:] and [not x] compute it. *)
Definition truthy (v : value) : bool :=
  match v with
  | PyNone => false
  | PyStr s => negb (bool_decide (s = []))
  | PyInt n => negb (n =? 0)%Z
  end.

Inductive exn : Type :=
  | AttributeError
  | ValueError
  | TypeError
  | OSError
  | OtherError (name : str).

End Py.

Import Py.

(** ** Running a script: printed lines and exceptions *)

(** The lines printed so far, and either the exception that stopped the
    script or the value computed.  What was printed before an exception
    stays printed. *)
Definition Script (A : Type) : Type := list str * (exn + A).

#[global] Instance Script_ret : MRet Script := fun A a => ([], inr a).

#[global] Instance Script_bind : MBind Script := fun A B f m =>
  match m with
  | (out, inl e) => (out, inl e)
  | (out, inr a) => let '(out', r) := f a in (out ++ out', r)
  end.

Definition print (line : str) : Script unit := ([line], inr tt).

Definition raise {A : Type} (e : exn) : Script A := ([], inl e).

(** A library call that returns a value or raises. *)
Definition call {A : Type} (r : exn + A) : Script A := ([], r).

(** A library call made for its effect only. *)
Definition call_ (r : option exn) : Script unit :=
  match r with
  | Some e => raise e
  | None => mret tt
  end.

(** ** The process environment *)

(** [os.getenv(key, default)]; [default] is [None] when omitted. *)
Definition os_getenv (env : gmap str str) (key : str) (default : value) : value :=
  match env !! key with
  | Some v => PyStr v
  | None => default
  end.

(** The method call [v.split(sep)]: only a [str] has the method. *)
Definition str_split (v : value) (sep : N) : Script (list str) :=
  match v with
  | PyStr s => mret (split sep s)
  | _ => raise AttributeError
  end.

(** ** What the script asks of the libraries and the file system *)

Abbreviation path := (list str).

(** The dictionary [dj_database_url] builds for one connection. *)
Abbreviation DbConfig := (list (str * value)).

(** Outcomes of the calls the script makes outside itself, in the
    order it makes them. *)
Record World : Type := {
  (** [Path(__file__).resolve().parent.parent] *)
  module_dir : path;
  (** [load_dotenv(p)] run in a process environment: the environment it
      leaves, or the exception it raises (an unreadable [.env]) *)
  load_dotenv : path -> gmap str str -> exn + gmap str str;
  (** the key [get_random_secret_key()] returns *)
  get_random_secret_key : str;
  (** [dj_database_url.parse(url, conn_max_age=...)] *)
  dj_parse : str -> Z -> exn + DbConfig;
  (** [os.makedirs(p, exist_ok=True)] *)
  os_makedirs : path -> option exn;
  (** [p.exists()], asked after the directory was made: its answer, or
      the [OSError] it lets through (a directory that may not be
      searched) *)
  path_exists : path -> exn + bool;
  (** [p.touch()] *)
  path_touch : path -> option exn
}.

(** [dj_database_url.config(default=..., conn_max_age=...)]: the library
    reads DATABASE_URL from the environment itself, falls back on
    [default], and parses the result when it is non-empty; with nothing
    to parse it returns the empty dictionary. *)
Definition dj_database_url_config (w : World) (env : gmap str str)
    (default : value) (conn_max_age : Z) : Script DbConfig :=
  let s := os_getenv env (lit "DATABASE_URL") default in
  if truthy s then
    match s with
    | PyStr url => call (dj_parse w url conn_max_age)
    | _ => raise TypeError
    end
  else mret [].

(** ** The settings namespace *)

(** The entries of the LOGGING dictionary that depend on DEBUG or on
    the log file, next to the fixed level of the file handler. *)
Record Logging : Type := {
  console_level : str;
  console_formatter : str;
  file_level : str;
  file_filename : path;
  root_handlers : list str;
  root_level : str
}.

(** The names bound when the script has run to its end.  A name that
    only one branch binds is optional. *)
Record Settings : Type := {
  BASE_DIR : path;
  SECRET_KEY : value;
  DEBUG : bool;
  ALLOWED_HOSTS : list str;
  DATABASE_URL : value;
  DATABASES : list (str * DbConfig);
  CORS_ALLOW_CREDENTIALS : bool;
  CORS_ALLOW_ALL_ORIGINS : option bool;
  CORS_ALLOWED_ORIGINS : option (list str);
  LOGGING : Logging;
  EMAIL_BACKEND : str;
  DEFAULT_FROM_EMAIL : value;
  EMAIL_HOST : value;
  EMAIL_PORT : value;
  EMAIL_USE_TLS : bool;
  EMAIL_HOST_USER : value;
  EMAIL_HOST_PASSWORD : value
}.

(** ** The script, block by block *)

Definition warn_secret_key : str :=
  lit "WARNING: Secret key not set. Using a random secret key.".
Definition warn_debug : str :=
  lit "WARNING: Debug mode is enabled.".
Definition warn_sqlite : str :=
  lit "WARNING: No database URL found in the environment. Using SQLite.".
Definition warn_cors_all : str :=
  lit "WARNING: All CORS origins are allowed.".
Definition warn_cors_none : str :=
  lit "WARNING: No CORS origins are allowed.".

Definition sqlite_url : str := lit "sqlite:///db.sqlite3".

(** Lines 17-20. *)
Definition secret_key_block (w : World) (env : gmap str str) : Script value :=
  let secret_key := os_getenv env (lit "SECRET_KEY") PyNone in
  if negb (truthy secret_key) then
    let secret_key := PyStr (get_random_secret_key w) in
    _ ← print warn_secret_key;
    mret secret_key
  else mret secret_key.

(** Lines 24-26. *)
Definition debug_block (env : gmap str str) : Script bool :=
  let debug :=
    value_eqb (os_getenv env (lit "DEBUG") (PyStr (lit "False")))
              (PyStr (lit "True")) in
  _ ← (if debug then print warn_debug else mret tt);
  mret debug.

(** Line 30. *)
Definition allowed_hosts_block (env : gmap str str) : Script (list str) :=
  str_split (os_getenv env (lit "ALLOWED_HOSTS") (PyStr (lit "localhost"))) comma.

(** Lines 91-100. *)
Definition database_block (w : World) (env : gmap str str)
    : Script (value * list (str * DbConfig)) :=
  let database_url := os_getenv env (lit "DATABASE_URL") PyNone in
  database_url ←
    (if negb (truthy database_url) then
       _ ← print warn_sqlite;
       mret (PyStr sqlite_url)
     else mret database_url);
  default ← dj_database_url_config w env database_url 600;
  mret (database_url, [(lit "default", default)]).

(** The list comprehension of lines 149-153,
    [[origin.strip() for origin in pieces if origin.strip()]]. *)
Definition stripped_origins (pieces : list str) : list str :=
  strip <$> filter (fun origin => strip origin ≠ []) pieces.

(** Lines 144-155. *)
Definition cors_block (env : gmap str str)
    : Script (bool * option bool * option (list str)) :=
  let cors_allow_credentials := true in
  if value_eqb (os_getenv env (lit "CORS_ALLOWED_ORIGINS") PyNone)
               (PyStr (lit "*")) then
    _ ← print warn_cors_all;
    mret (cors_allow_credentials, Some true, None)
  else
    pieces ← str_split
      (os_getenv env (lit "CORS_ALLOWED_ORIGINS") (PyStr (lit ""))) comma;
    let cors_allowed_origins := stripped_origins pieces in
    _ ← (if bool_decide (cors_allowed_origins = [])
         then print warn_cors_none else mret tt);
    mret (cors_allow_credentials, None, Some cors_allowed_origins).

(** [BASE_DIR / "logs"] and [log_dir / "django.log"]. *)
Definition log_dir (base_dir : path) : path := base_dir ++ [lit "logs"].
Definition log_file_path (base_dir : path) : path :=
  log_dir base_dir ++ [lit "django.log"].

(** Lines 166-196: the LOGGING dictionary. *)
Definition logging_of (base_dir : path) (debug : bool) : Logging :=
  {| console_level := if debug then lit "DEBUG" else lit "INFO";
     console_formatter := if debug then lit "verbose" else lit "simple";
     file_level := lit "WARNING";
     file_filename := log_file_path base_dir;
     root_handlers := [lit "console"; lit "file"];
     root_level := if debug then lit "DEBUG" else lit "INFO" |}.

(** Lines 160-164, then LOGGING. *)
Definition logging_block (w : World) (base_dir : path) (debug : bool)
    : Script Logging :=
  let log_dir := log_dir base_dir in
  let log_file_path := log_file_path base_dir in
  _ ← call_ (os_makedirs w log_dir);
  present ← call (path_exists w log_file_path);
  _ ← (if negb present
       then call_ (path_touch w log_file_path) else mret tt);
  mret (logging_of base_dir debug).

Definition smtp_backend : str :=
  lit "django.core.mail.backends.smtp.EmailBackend".
Definition console_backend : str :=
  lit "django.core.mail.backends.console.EmailBackend".

(** Lines 17-212 of [core/settings.py], top to bottom.  [env] is the
    environment as [os.getenv] sees it once line 13 has merged the
    [.env] file into it. *)
Definition settings (w : World) (env : gmap str str) : Script Settings :=
  let base_dir := module_dir w in
  secret_key ← secret_key_block w env;
  debug ← debug_block env;
  allowed_hosts ← allowed_hosts_block env;
  '(database_url, databases) ← database_block w env;
  '(cors_allow_credentials, cors_allow_all_origins, cors_allowed_origins) ←
    cors_block env;
  logging ← logging_block w base_dir debug;
  let email_backend := if negb debug then smtp_backend else console_backend in
  mret {| BASE_DIR := base_dir;
          SECRET_KEY := secret_key;
          DEBUG := debug;
          ALLOWED_HOSTS := allowed_hosts;
          DATABASE_URL := database_url;
          DATABASES := databases;
          CORS_ALLOW_CREDENTIALS := cors_allow_credentials;
          CORS_ALLOW_ALL_ORIGINS := cors_allow_all_origins;
          CORS_ALLOWED_ORIGINS := cors_allowed_origins;
          LOGGING := logging;
          EMAIL_BACKEND := email_backend;
          DEFAULT_FROM_EMAIL := os_getenv env (lit "DEFAULT_FROM_EMAIL") PyNone;
          EMAIL_HOST := os_getenv env (lit "EMAIL_HOST") PyNone;
          EMAIL_PORT := os_getenv env (lit "EMAIL_PORT") (PyInt 587);
          EMAIL_USE_TLS :=
            value_eqb (os_getenv env (lit "EMAIL_USE_TLS") (PyStr (lit "True")))
                      (PyStr (lit "True"));
          EMAIL_HOST_USER := os_getenv env (lit "EMAIL_HOST_USER") PyNone;
          EMAIL_HOST_PASSWORD := os_getenv env (lit "EMAIL_HOST_PASSWORD") PyNone |}.

(** [BASE_DIR / ".env"] *)
Definition dotenv_path (base_dir : path) : path := base_dir ++ [lit ".env"].

(** The whole module as the framework imports it: line 13 loads the
    [.env] file into the process environment [environ], and the rest
    runs in the environment that leaves. *)
Definition settings_module (w : World) (environ : gmap str str)
    : Script Settings :=
  let base_dir := module_dir w in
  env ← call (load_dotenv w (dotenv_path base_dir) environ);
  settings w env.

(** A world for running the script on examples: there is no [.env]
    file, every URL parses to a dictionary naming it, the directory can
    be made and the log file is not there yet. *)
Definition demo_world : World :=
  {| module_dir := [lit "srv"; lit "app"];
     load_dotenv := fun _ environ => inr environ;
     get_random_secret_key := lit "k3y";
     dj_parse := fun url age => inr [(lit "NAME", PyStr url); (lit "CONN_MAX_AGE", PyInt age)];
     os_makedirs := fun _ => None;
     path_exists := fun _ => inr false;
     path_touch := fun _ => None |}.

(** A world whose URL parser rejects everything but the SQLite URL, and
    whose log file is already there. *)
Definition strict_world : World :=
  {| module_dir := [lit "srv"; lit "app"];
     load_dotenv := fun _ environ => inr environ;
     get_random_secret_key := lit "k3y";
     dj_parse := fun url age =>
       if bool_decide (url = sqlite_url)
       then inr [(lit "ENGINE", PyStr (lit "django.db.backends.sqlite3"));
                 (lit "NAME", PyStr (lit "db.sqlite3"));
                 (lit "CONN_MAX_AGE", PyInt age)]
       else inl ValueError;
     os_makedirs := fun _ => None;
     path_exists := fun _ => inr true;
     path_touch := fun _ => Some OSError |}.

(** Environments for running the script on examples. *)
Definition env_blank_cors : gmap str str :=
  {[ lit "CORS_ALLOWED_ORIGINS" := lit " , ,,  " ]}.

Definition env_wildcard : gmap str str :=
  {[ lit "CORS_ALLOWED_ORIGINS" := lit "*" ]}.

Definition env_spaced_wildcard : gmap str str :=
  {[ lit "CORS_ALLOWED_ORIGINS" := lit " * " ]}.

Definition env_skipped_origin : gmap str str :=
  {[ lit "CORS_ALLOWED_ORIGINS" := lit "a,,b" ]}.

Definition env_debug : gmap str str :=
  {[ lit "DEBUG" := lit "True" ]}.

Definition env_production : gmap str str :=
  <[ lit "SECRET_KEY" := lit "s3cr3t" ]>
  (<[ lit "ALLOWED_HOSTS" := lit "api.example.org,example.org" ]>
  (<[ lit "DATABASE_URL" := lit "postgres://u:p@db:5432/loc" ]>
  (<[ lit "CORS_ALLOWED_ORIGINS" := lit "https://example.org, https://app.example.org" ]>
   ∅))).

(** ** The claim of the specification about the CORS list, in its words *)

(** "splitting the value on commas and trimming surrounding whitespace
    from each entry" *)
Definition origins_as_specified (v : str) : list str :=
  strip <$> split comma v.

(** The characters of a value that names no origin. *)
Definition comma_or_space (c : N) : bool := (c =? comma)%N || isspace c.

(** ** When the script runs to its end *)

Definition returns {A : Type} (r : exn + A) : bool :=
  match r with inr _ => true | inl _ => false end.

Definition succeeds (r : option exn) : bool :=
  match r with None => true | Some _ => false end.

(** The URL that reaches [dj_database_url.parse], if any: the value of
    DATABASE_URL, the SQLite URL when the variable is absent, and none
    when the variable is set to the empty string. *)
Definition database_url_parsed (env : gmap str str) : option str :=
  match env !! lit "DATABASE_URL" with
  | Some [] => None
  | Some url => Some url
  | None => Some sqlite_url
  end.

(** The log file is there, or can be created. *)
Definition log_file_ready (w : World) (base_dir : path) : bool :=
  match path_exists w (log_file_path base_dir) with
  | inl _ => false
  | inr present => present || succeeds (path_touch w (log_file_path base_dir))
  end.

(** Normal operation: the library accepts the database URL in effect,
    and the log directory and the log file can be created. *)
Definition normal_operation (w : World) (env : gmap str str) : bool :=
  match database_url_parsed env with
  | Some url => returns (dj_parse w url 600)
  | None => true
  end
  && succeeds (os_makedirs w (log_dir (module_dir w)))
  && log_file_ready w (module_dir w).

(** Normal operation of the whole import: line 13 returns, and what
    follows runs normally in the environment it leaves. *)
Definition normal_import (w : World) (environ : gmap str str) : bool :=
  match load_dotenv w (dotenv_path (module_dir w)) environ with
  | inl _ => false
  | inr env => normal_operation w env
  end.

(** ** What a run prints, and what an origin looks like *)

(** The conditions under which each warning is due. *)
Definition secret_key_missing (env : gmap str str) : bool :=
  match env !! lit "SECRET_KEY" with
  | Some (_ :: _) => false
  | _ => true
  end.

Definition debug_on (env : gmap str str) : bool :=
  bool_decide (env !! lit "DEBUG" = Some (lit "True")).

Definition database_url_missing (env : gmap str str) : bool :=
  match env !! lit "DATABASE_URL" with
  | Some (_ :: _) => false
  | _ => true
  end.

Definition cors_wildcard (env : gmap str str) : bool :=
  bool_decide (env !! lit "CORS_ALLOWED_ORIGINS" = Some (lit "*")).

Definition cors_blank (env : gmap str str) : bool :=
  forallb comma_or_space (default (lit "") (env !! lit "CORS_ALLOWED_ORIGINS")).

(** The warnings of lines 20, 26 and 93, in the order of the script. *)
Definition warnings_before_cors (env : gmap str str) : list str :=
  (if secret_key_missing env then [warn_secret_key] else [])
  ++ (if debug_on env then [warn_debug] else [])
  ++ (if database_url_missing env then [warn_sqlite] else []).

(** The warning of line 146 or of line 155, if any. *)
Definition cors_warning (env : gmap str str) : list str :=
  if cors_wildcard env then [warn_cors_all]
  else if cors_blank env then [warn_cors_none]
  else [].

Definition warnings_due (env : gmap str str) : list str :=
  warnings_before_cors env ++ cors_warning env.

(** An origin as the script lists it: not empty, without a comma, and
    with nothing for [strip] to remove. *)
Definition clean_origin (origin : str) : Prop :=
  origin ≠ [] ∧ (comma ∉ origin) ∧ strip origin = origin.

(** The same world, but with another outcome for [p.touch()]. *)
Definition with_touch (w : World) (touch : path → option exn) : World :=
  {| module_dir := module_dir w;
     load_dotenv := load_dotenv w;
     get_random_secret_key := get_random_secret_key w;
     dj_parse := dj_parse w;
     os_makedirs := os_makedirs w;
     path_exists := path_exists w;
     path_touch := touch |}.

(** The same world, but with another URL parser. *)
Definition with_parser (w : World) (parse : str → Z → exn + DbConfig) : World :=
  {| module_dir := module_dir w;
     load_dotenv := load_dotenv w;
     get_random_secret_key := get_random_secret_key w;
     dj_parse := parse;
     os_makedirs := os_makedirs w;
     path_exists := path_exists w;
     path_touch := path_touch w |}.

(** The database URL in effect passes the parser. *)
Definition database_url_accepted (w : World) (env : gmap str str) : bool :=
  match database_url_parsed env with
  | Some url => returns (dj_parse w url 600)
  | None => true
  end.

(** A world whose [.env] file cannot be decoded. *)
Definition undecodable_dotenv_world : World :=
  {| module_dir := [lit "srv"; lit "app"];
     load_dotenv := fun _ _ => inl (OtherError (lit "UnicodeDecodeError"));
     get_random_secret_key := lit "k3y";
     dj_parse := dj_parse demo_world;
     os_makedirs := fun _ => None;
     path_exists := fun _ => inr false;
     path_touch := fun _ => None |}.

Definition env_bad_port : gmap str str :=
  {[ lit "DATABASE_URL" := lit "postgres://db:port/loc" ]}.

(** More environments for examples. *)
Definition two_origins : list str :=
  [lit "https://example.org"; lit "https://app.example.org"].

Definition env_two_origins : gmap str str :=
  {[ lit "CORS_ALLOWED_ORIGINS" := lit "https://example.org,https://app.example.org" ]}.

Definition env_empty_database_url : gmap str str :=
  {[ lit "DATABASE_URL" := lit "" ]}.

(** The environment variables the script reads. *)
Definition settings_variables : list str :=
  [lit "SECRET_KEY"; lit "DEBUG"; lit "ALLOWED_HOSTS"; lit "DATABASE_URL";
   lit "CORS_ALLOWED_ORIGINS"; lit "DEFAULT_FROM_EMAIL"; lit "EMAIL_HOST";
   lit "EMAIL_PORT"; lit "EMAIL_USE_TLS"; lit "EMAIL_HOST_USER";
   lit "EMAIL_HOST_PASSWORD"].

Definition env_mail : gmap str str :=
  <[ lit "EMAIL_PORT" := lit "587" ]>
  (<[ lit "EMAIL_USE_TLS" := lit "true" ]>
  (<[ lit "EMAIL_HOST" := lit "smtp.example.org" ]> ∅)).

(** ** Facts about [split] and [strip] *)

Section StrFacts.

Implicit Types (s t : str) (c sep : N).

Lemma split_not_nil sep s : split sep s ≠ [].
Proof.
  destruct s as [|c s]; simpl; [done|].
  destruct (c =? sep)%N; [done|]. by destruct (split sep s).
Qed.

Lemma split_cons_sep sep s : split sep (sep :: s) = [] :: split sep s.
Proof. simpl. by rewrite N.eqb_refl. Qed.

Lemma split_cons_other sep c s :
  c ≠ sep →
  ∃ piece pieces,
    split sep s = piece :: pieces ∧ split sep (c :: s) = (c :: piece) :: pieces.
Proof.
  intros Hc. simpl. apply N.eqb_neq in Hc. rewrite Hc.
  destruct (split sep s) as [|piece pieces] eqn:E.
  - by apply split_not_nil in E.
  - by exists piece, pieces.
Qed.

(** A string without the separator is its own single piece. *)
Lemma split_without_sep sep s : sep ∉ s → split sep s = [s].
Proof.
  induction s as [|c s IH]; intros Hs; [done|].
  apply not_elem_of_cons in Hs as [Hc Hs].
  simpl. destruct (N.eqb_spec c sep) as [->|_]; [done|].
  by rewrite IH.
Qed.

(** Joining the pieces with the separator gives the string back. *)
Lemma join_split sep s : join sep (split sep s) = s.
Proof.
  induction s as [|c s IH]; [done|].
  destruct (N.eqb_spec c sep) as [->|Hc].
  - rewrite split_cons_sep. simpl.
    destruct (split sep s) eqn:E; [by apply split_not_nil in E|].
    by rewrite IH.
  - destruct (split_cons_other sep c s Hc) as (piece & pieces & E1 & E2).
    rewrite E2. rewrite E1 in IH. simpl in *.
    destruct pieces; by rewrite <- IH.
Qed.

(** No piece contains the separator. *)
Lemma split_pieces_no_sep sep s : Forall (fun piece => sep ∉ piece) (split sep s).
Proof.
  induction s as [|c s IH].
  - repeat constructor. apply not_elem_of_nil.
  - destruct (N.eqb_spec c sep) as [->|Hc].
    + rewrite split_cons_sep. constructor; [apply not_elem_of_nil | done].
    + destruct (split_cons_other sep c s Hc) as (piece & pieces & E1 & E2).
      rewrite E2. rewrite E1 in IH. apply Forall_cons in IH as [H1 H2].
      constructor; [|done]. apply not_elem_of_cons. split; [congruence|done].
Qed.

(** Every character of a piece is a character of the string. *)
Lemma split_pieces_sub sep s piece c :
  piece ∈ split sep s → c ∈ piece → c ∈ s.
Proof.
  revert piece. induction s as [|a s IH]; intros piece Hp Hc.
  - simpl in Hp. apply list_elem_of_singleton in Hp as ->. done.
  - destruct (N.eqb_spec a sep) as [->|Ha].
    + rewrite split_cons_sep in Hp. apply elem_of_cons in Hp as [->|Hp].
      * by apply not_elem_of_nil in Hc.
      * right. eauto.
    + destruct (split_cons_other sep a s Ha) as (p & ps & E1 & E2).
      rewrite E2 in Hp. rewrite E1 in IH.
      apply elem_of_cons in Hp as [->|Hp].
      * apply elem_of_cons in Hc as [->|Hc]; [left|right].
        apply (IH p); [left | done].
      * right. apply (IH piece); [by right | done].
Qed.

Lemma lstrip_all_space s : Forall (fun c => isspace c = true) s → lstrip s = [].
Proof. induction 1 as [|c s Hc _ IH]; simpl; [done|]. by rewrite Hc. Qed.

Lemma lstrip_nil_inv s : lstrip s = [] → Forall (fun c => isspace c = true) s.
Proof.
  induction s as [|c s IH]; simpl; [constructor|].
  destruct (isspace c) eqn:E; [|done]. intros H. constructor; auto.
Qed.

Lemma lstrip_suffix s : ∃ pre, s = pre ++ lstrip s ∧ Forall (fun c => isspace c = true) pre.
Proof.
  induction s as [|c s (pre & E & Hpre)]; simpl.
  - by exists [].
  - destruct (isspace c) eqn:Hc.
    + exists (c :: pre). split; [simpl; congruence | by constructor].
    + by exists [].
Qed.

Lemma strip_all_space s : Forall (fun c => isspace c = true) s → strip s = [].
Proof. intros H. unfold strip. by rewrite (lstrip_all_space s H). Qed.

Lemma rstrip_nil_inv s : rstrip s = [] → Forall (fun c => isspace c = true) s.
Proof.
  unfold rstrip. intros H.
  apply (f_equal (@rev N)) in H. rewrite rev_involutive in H. simpl in H.
  rename H into H'.
  apply lstrip_nil_inv in H'. rewrite <- (rev_involutive s).
  by apply Forall_rev.
Qed.

Lemma strip_nil_inv s : strip s = [] → Forall (fun c => isspace c = true) s.
Proof.
  unfold strip. intros H. apply rstrip_nil_inv in H.
  destruct (lstrip_suffix s) as (pre & E & Hpre).
  rewrite E. by apply Forall_app.
Qed.

(** A string strips to nothing exactly when it is all whitespace. *)
Lemma strip_nil_iff s : strip s = [] ↔ Forall (fun c => isspace c = true) s.
Proof. split; [apply strip_nil_inv | apply strip_all_space]. Qed.

End StrFacts.

(** ** Facts about running scripts *)

Section ScriptFacts.

Context {A B : Type}.
Implicit Types (m : Script A) (f : A → Script B).

Lemma bind_returned m f out a :
  m = (out, inr a) → m ≫= f = (out ++ (f a).1, (f a).2).
Proof. intros ->. unfold mbind, Script_bind. by destruct (f a). Qed.

Lemma bind_raised m f out e : m = (out, inl e) → m ≫= f = (out, inl e).
Proof. by intros ->. Qed.

(** A sequence returns only if both of its parts do. *)
Lemma bind_inr_inv m f out b :
  m ≫= f = (out, inr b) →
  ∃ o1 a o2, m = (o1, inr a) ∧ f a = (o2, inr b) ∧ out = o1 ++ o2.
Proof.
  destruct m as [o1 [e|a]]; [done|].
  unfold mbind, Script_bind. destruct (f a) as [o2 r] eqn:E.
  intros [= <- ->]. by exists o1, a, o2.
Qed.

End ScriptFacts.

Lemma returns_true {A : Type} (r : exn + A) : returns r = true → ∃ a, r = inr a.
Proof. destruct r; [done | eauto]. Qed.

Lemma succeeds_true (r : option exn) : succeeds r = true → r = None.
Proof. by destruct r. Qed.

(** ** The blocks, one at a time *)

Section Blocks.

Variable w : World.
Variable env : gmap str str.

Lemma os_getenv_set key default v :
  env !! key = Some v → os_getenv env key default = PyStr v.
Proof. unfold os_getenv. by intros ->. Qed.

Lemma os_getenv_unset key default :
  env !! key = None → os_getenv env key default = default.
Proof. unfold os_getenv. by intros ->. Qed.

(** With a [str] default, [os.getenv] always yields a [str]. *)
Lemma os_getenv_str key d :
  os_getenv env key (PyStr d) = PyStr (default d (env !! key)).
Proof. unfold os_getenv. by destruct (env !! key). Qed.

Lemma secret_key_block_missing :
  env !! lit "SECRET_KEY" = None ∨ env !! lit "SECRET_KEY" = Some [] →
  secret_key_block w env
  = ([warn_secret_key], inr (PyStr (get_random_secret_key w))).
Proof. unfold secret_key_block, os_getenv. by intros [-> | ->]. Qed.

Lemma secret_key_block_set v :
  env !! lit "SECRET_KEY" = Some v → v ≠ [] →
  secret_key_block w env = ([], inr (PyStr v)).
Proof.
  unfold secret_key_block, os_getenv. intros -> Hv. simpl.
  by rewrite bool_decide_eq_false_2.
Qed.

Lemma secret_key_block_returns :
  ∃ out v, secret_key_block w env = (out, inr v).
Proof.
  destruct (env !! lit "SECRET_KEY") as [[|c v]|] eqn:E.
  - rewrite secret_key_block_missing; eauto.
  - rewrite (secret_key_block_set (c :: v)); eauto.
  - rewrite secret_key_block_missing; eauto.
Qed.

Lemma debug_block_on :
  env !! lit "DEBUG" = Some (lit "True") →
  debug_block env = ([warn_debug], inr true).
Proof. unfold debug_block, os_getenv. by intros ->. Qed.

Lemma debug_block_off :
  env !! lit "DEBUG" ≠ Some (lit "True") →
  debug_block env = ([], inr false).
Proof.
  unfold debug_block. rewrite os_getenv_str. intros H.
  unfold value_eqb. rewrite bool_decide_eq_false_2; [done|].
  destruct (env !! lit "DEBUG") as [v|]; simpl; [congruence | done].
Qed.

Lemma debug_block_returns : ∃ out b, debug_block env = (out, inr b).
Proof.
  destruct (decide (env !! lit "DEBUG" = Some (lit "True"))).
  - rewrite debug_block_on; eauto.
  - rewrite debug_block_off; eauto.
Qed.

Lemma allowed_hosts_block_eq :
  allowed_hosts_block env
  = ([], inr (split comma (default (lit "localhost") (env !! lit "ALLOWED_HOSTS")))).
Proof. unfold allowed_hosts_block. by rewrite os_getenv_str. Qed.

End Blocks.

Section MoreBlocks.

Variable w : World.
Variable env : gmap str str.

(** The database block, case by case on DATABASE_URL. *)
Lemma database_block_absent :
  env !! lit "DATABASE_URL" = None →
  database_block w env
  = ([warn_sqlite],
     match dj_parse w sqlite_url 600 with
     | inl e => inl e
     | inr cfg => inr (PyStr sqlite_url, [(lit "default", cfg)])
     end).
Proof.
  intros H. unfold database_block, dj_database_url_config, os_getenv.
  rewrite H. simpl. unfold mbind, Script_bind, call. simpl.
  by destruct (dj_parse w sqlite_url 600).
Qed.

Lemma database_block_empty :
  env !! lit "DATABASE_URL" = Some [] →
  database_block w env
  = ([warn_sqlite], inr (PyStr sqlite_url, [(lit "default", [])])).
Proof.
  intros H. unfold database_block, dj_database_url_config, os_getenv.
  by rewrite H.
Qed.

Lemma database_block_set url :
  env !! lit "DATABASE_URL" = Some url → url ≠ [] →
  database_block w env
  = ([],
     match dj_parse w url 600 with
     | inl e => inl e
     | inr cfg => inr (PyStr url, [(lit "default", cfg)])
     end).
Proof.
  intros H Hurl. unfold database_block, dj_database_url_config, os_getenv.
  rewrite H. simpl. rewrite bool_decide_eq_false_2 by done. simpl.
  unfold mbind, Script_bind, call. simpl.
  by destruct (dj_parse w url 600).
Qed.

(** The block returns exactly when the library accepts the URL. *)
Lemma database_block_returns_iff :
  (∃ out r, database_block w env = (out, inr r))
  ↔ match database_url_parsed env with
    | Some url => returns (dj_parse w url 600)
    | None => true
    end = true.
Proof.
  unfold database_url_parsed.
  destruct (env !! lit "DATABASE_URL") as [[|c url]|] eqn:E.
  - rewrite database_block_empty by done. split; eauto.
  - rewrite (database_block_set (c :: url)) by done.
    destruct (dj_parse w (c :: url) 600) as [e|cfg]; simpl.
    + split; [by intros (? & ? & ?) | done].
    + split; eauto.
  - rewrite database_block_absent by done.
    destruct (dj_parse w sqlite_url 600) as [e|cfg]; simpl.
    + split; [by intros (? & ? & ?) | done].
    + split; eauto.
Qed.

Lemma cors_block_wildcard :
  env !! lit "CORS_ALLOWED_ORIGINS" = Some (lit "*") →
  cors_block env = ([warn_cors_all], inr (true, Some true, None)).
Proof. unfold cors_block, os_getenv. by intros ->. Qed.

Lemma cors_block_list :
  env !! lit "CORS_ALLOWED_ORIGINS" ≠ Some (lit "*") →
  let origins :=
    stripped_origins
      (split comma (default (lit "") (env !! lit "CORS_ALLOWED_ORIGINS"))) in
  cors_block env
  = (if bool_decide (origins = []) then [warn_cors_none] else [],
     inr (true, None, Some origins)).
Proof.
  intros H origins. unfold cors_block.
  replace (value_eqb _ _) with false.
  - rewrite os_getenv_str. subst origins. simpl.
    unfold mbind, Script_bind. simpl. by destruct (bool_decide _).
  - unfold os_getenv.
    destruct (env !! lit "CORS_ALLOWED_ORIGINS") as [v|]; simpl; [|done].
    symmetry. apply bool_decide_eq_false_2. congruence.
Qed.

Lemma cors_block_returns : ∃ out r, cors_block env = (out, inr r).
Proof.
  destruct (decide (env !! lit "CORS_ALLOWED_ORIGINS" = Some (lit "*"))).
  - rewrite cors_block_wildcard; eauto.
  - rewrite cors_block_list; eauto.
Qed.

(** The logging block returns exactly when the directory and, if it is
    not there yet, the log file can be created. *)
Lemma logging_block_returns_iff base_dir debug :
  (∃ out lg, logging_block w base_dir debug = (out, inr lg))
  ↔ succeeds (os_makedirs w (log_dir base_dir))
    && log_file_ready w base_dir = true.
Proof.
  unfold logging_block, log_file_ready.
  destruct (os_makedirs w (log_dir base_dir)) as [e|]; simpl.
  { split; [by intros (? & ? & ?) | done]. }
  destruct (path_exists w (log_file_path base_dir)) as [e|[|]]; simpl.
  { split; [by intros (? & ? & ?) | done]. }
  { split; eauto. }
  destruct (path_touch w (log_file_path base_dir)); simpl.
  - split; [by intros (? & ? & ?) | done].
  - split; eauto.
Qed.

Lemma logging_block_value base_dir debug out lg :
  logging_block w base_dir debug = (out, inr lg) →
  out = [] ∧ lg = logging_of base_dir debug.
Proof.
  unfold logging_block.
  destruct (os_makedirs w (log_dir base_dir)) as [e|]; simpl; [done|].
  destruct (path_exists w (log_file_path base_dir)) as [e|[|]]; simpl; [done| |].
  { by intros [= <- <-]. }
  destruct (path_touch w (log_file_path base_dir)); simpl; [done|].
  by intros [= <- <-].
Qed.

End MoreBlocks.

(** ** Facts about the list comprehension *)

Section Comprehension.

Implicit Types (v origin : str) (pieces : list str).

(** Filtering before or after stripping is the same. *)
Lemma stripped_origins_filter pieces :
  stripped_origins pieces = filter (fun origin => origin ≠ []) (strip <$> pieces).
Proof.
  unfold stripped_origins. induction pieces as [|p pieces IH]; [done|].
  rewrite fmap_cons, !filter_cons. rewrite <- IH.
  by destruct (decide (strip p ≠ [])).
Qed.

Lemma elem_of_stripped_origins pieces origin :
  origin ∈ stripped_origins pieces
  ↔ origin ≠ [] ∧ ∃ piece, piece ∈ pieces ∧ strip piece = origin.
Proof.
  unfold stripped_origins. rewrite list_elem_of_fmap. split.
  - intros (piece & -> & Hp). apply list_elem_of_filter in Hp as [Hne Hp]. eauto.
  - intros (Hne & piece & Hp & <-). exists piece. split; [done|].
    by apply list_elem_of_filter.
Qed.

Lemma stripped_origins_nil pieces :
  stripped_origins pieces = []
  ↔ Forall (fun piece => Forall (fun c => isspace c = true) piece) pieces.
Proof.
  unfold stripped_origins.
  transitivity (filter (fun origin => strip origin ≠ []) pieces = []).
  { split; [apply fmap_nil_inv | by intros ->]. }
  induction pieces as [|p pieces IH].
  - split; [constructor | done].
  - rewrite filter_cons. destruct (decide (strip p ≠ [])) as [Hne|Heq].
    + split; [done|]. intros [Hp _]%Forall_cons.
      by apply strip_all_space in Hp.
    + apply dec_stable in Heq. rewrite IH, Forall_cons.
      apply strip_nil_inv in Heq. tauto.
Qed.

Lemma elem_of_join sep pieces c :
  c ∈ join sep pieces → c = sep ∨ ∃ piece, piece ∈ pieces ∧ c ∈ piece.
Proof.
  induction pieces as [|p pieces IH]; simpl.
  - by intros ?%not_elem_of_nil.
  - destruct pieces as [|q pieces].
    + intros Hc. right. exists p. split; [left | done].
    + rewrite elem_of_app, elem_of_cons. intros [Hc | [-> | Hc]].
      * right. exists p. split; [left | done].
      * by left.
      * destruct (IH Hc) as [-> | (piece & Hp & Hc')]; [by left|].
        right. exists piece. split; [by right | done].
Qed.

(** The comprehension over the pieces of [v] is empty exactly when [v]
    holds nothing but commas and whitespace. *)
Lemma stripped_origins_split_nil v :
  stripped_origins (split comma v) = [] ↔ forallb comma_or_space v = true.
Proof.
  rewrite stripped_origins_nil, forallb_forall, Forall_forall. split.
  - intros H c Hc%list_elem_of_In. rewrite <- (join_split comma v) in Hc.
    unfold comma_or_space. apply orb_true_iff.
    destruct (elem_of_join _ _ _ Hc) as [-> | (piece & Hp & Hc')].
    + left. apply N.eqb_refl.
    + right. specialize (H piece Hp). rewrite Forall_forall in H. auto.
  - intros H piece Hp. apply Forall_forall. intros c Hc.
    assert (c ∈ v) as Hv by (by eapply split_pieces_sub).
    apply list_elem_of_In, H in Hv. unfold comma_or_space in Hv.
    apply orb_true_iff in Hv as [Heq%N.eqb_eq | Hs]; [|done].
    subst c. pose proof (split_pieces_no_sep comma v) as Hno.
    rewrite Forall_forall in Hno. by apply Hno in Hp.
Qed.

End Comprehension.

(** ** The whole script *)

Section Whole.

Variable w : World.
Variable env : gmap str str.

(** If the script returns, every block returned, the namespace holds
    what the blocks computed and the output is theirs in order. *)
Lemma settings_inr_inv out s :
  settings w env = (out, inr s) →
  ∃ o1 o2 o4 o5,
    out = o1 ++ o2 ++ o4 ++ o5
    ∧ secret_key_block w env = (o1, inr (SECRET_KEY s))
    ∧ debug_block env = (o2, inr (DEBUG s))
    ∧ allowed_hosts_block env = ([], inr (ALLOWED_HOSTS s))
    ∧ database_block w env = (o4, inr (DATABASE_URL s, DATABASES s))
    ∧ cors_block env
      = (o5, inr (CORS_ALLOW_CREDENTIALS s, CORS_ALLOW_ALL_ORIGINS s,
                  CORS_ALLOWED_ORIGINS s))
    ∧ logging_block w (module_dir w) (DEBUG s) = ([], inr (LOGGING s))
    ∧ EMAIL_BACKEND s = (if negb (DEBUG s) then smtp_backend else console_backend)
    ∧ BASE_DIR s = module_dir w.
Proof.
  unfold settings. intros H.
  apply bind_inr_inv in H as (o1 & sk & r1 & E1 & H & ->).
  apply bind_inr_inv in H as (o2 & dbg & r2 & E2 & H & ->).
  apply bind_inr_inv in H as (o3 & hosts & r3 & E3 & H & ->).
  apply bind_inr_inv in H as (o4 & [url dbs] & r4 & E4 & H & ->).
  apply bind_inr_inv in H as (o5 & [[cred all] origins] & r5 & E5 & H & ->).
  apply bind_inr_inv in H as (o6 & lg & r6 & E6 & H & ->).
  injection H as <- <-.
  destruct (logging_block_value _ _ _ _ _ E6) as [-> _].
  rewrite allowed_hosts_block_eq in E3. injection E3 as <- E3.
  exists o1, o2, o4, o5. simpl. rewrite app_nil_r.
  repeat split; try done.
  by rewrite allowed_hosts_block_eq, E3.
Qed.

(** The script returns exactly under normal operation: an exception can
    only come out of the URL parser or the file system. *)
Lemma settings_returns_iff :
  (∃ out s, settings w env = (out, inr s)) ↔ normal_operation w env = true.
Proof.
  unfold normal_operation. rewrite <- andb_assoc, andb_true_iff.
  rewrite <- database_block_returns_iff.
  split.
  - intros (out & s & H).
    apply settings_inr_inv in H as (o1 & o2 & o4 & o5 & _ & _ & _ & _ & E4 & _ & E6 & _).
    split; [eauto|]. apply (logging_block_returns_iff w _ (DEBUG s)). eauto.
  - intros [(o4 & [url dbs] & E4) H6].
    destruct (secret_key_block_returns w env) as (o1 & sk & E1).
    destruct (debug_block_returns env) as (o2 & dbg & E2).
    destruct (cors_block_returns env) as (o5 & [[cred all] origins] & E5).
    apply (logging_block_returns_iff w _ dbg) in H6 as (o6 & lg & E6).
    unfold settings, mbind, Script_bind.
    rewrite E1, E2, allowed_hosts_block_eq, E4, E5, E6. simpl. eauto.
Qed.

(** Under normal operation the script returns a namespace, and the
    blocks account for it. *)
Lemma settings_normal :
  normal_operation w env = true →
  ∃ out s o1 o2 o4 o5,
    settings w env = (out, inr s)
    ∧ out = o1 ++ o2 ++ o4 ++ o5
    ∧ secret_key_block w env = (o1, inr (SECRET_KEY s))
    ∧ debug_block env = (o2, inr (DEBUG s))
    ∧ allowed_hosts_block env = ([], inr (ALLOWED_HOSTS s))
    ∧ database_block w env = (o4, inr (DATABASE_URL s, DATABASES s))
    ∧ cors_block env
      = (o5, inr (CORS_ALLOW_CREDENTIALS s, CORS_ALLOW_ALL_ORIGINS s,
                  CORS_ALLOWED_ORIGINS s))
    ∧ LOGGING s = logging_of (module_dir w) (DEBUG s)
    ∧ EMAIL_BACKEND s = (if negb (DEBUG s) then smtp_backend else console_backend).
Proof.
  intros (out & s & H)%settings_returns_iff.
  destruct (settings_inr_inv _ _ H) as (o1 & o2 & o4 & o5 & ? & ? & ? & ? & ? & ? & E6 & ? & ?).
  apply logging_block_value in E6 as [_ E6].
  exists out, s, o1, o2, o4, o5. repeat split; done.
Qed.

End Whole.

(** ** The CORS settings *)

(** C1.  When CORS_ALLOWED_ORIGINS is absent, or its value is empty or
    holds only commas and whitespace, the script binds
    CORS_ALLOWED_ORIGINS to the empty list and prints the warning that
    no CORS origins are allowed. *)
Theorem cors_unset_or_blank_allows_none (w : World) (env : gmap str str) :
  normal_operation w env = true →
  (env !! lit "CORS_ALLOWED_ORIGINS" = None
   ∨ ∃ v, env !! lit "CORS_ALLOWED_ORIGINS" = Some v
          ∧ forallb comma_or_space v = true) →
  ∃ out s,
    settings w env = (out, inr s)
    ∧ CORS_ALLOWED_ORIGINS s = Some []
    ∧ warn_cors_none ∈ out.
Proof.
  intros Hn Hv.
  destruct (settings_normal w env Hn)
    as (out & s & o1 & o2 & o4 & o5 & H & -> & _ & _ & _ & _ & E5 & _).
  assert (env !! lit "CORS_ALLOWED_ORIGINS" ≠ Some (lit "*")) as Hne.
  { destruct Hv as [-> | (v & -> & Hv)]; [done|]. by intros [= ->]. }
  assert (forallb comma_or_space
            (default (lit "") (env !! lit "CORS_ALLOWED_ORIGINS")) = true) as Hb.
  { by destruct Hv as [-> | (v & -> & Hv)]. }
  apply stripped_origins_split_nil in Hb.
  pose proof (cors_block_list env Hne) as E. simpl in E.
  rewrite Hb in E. rewrite E in E5. injection E5 as Ho _ _ Hl.
  exists (o1 ++ o2 ++ o4 ++ o5), s.
  split; [done|]. split; [done|].
  rewrite !elem_of_app. do 3 right. rewrite <- Ho. by left.
Qed.

Lemma cors_unset_or_blank_allows_none_witness :
  ∃ out s,
    settings demo_world env_blank_cors = (out, inr s)
    ∧ CORS_ALLOWED_ORIGINS s = Some []
    ∧ warn_cors_none ∈ out.
Proof.
  apply (cors_unset_or_blank_allows_none demo_world env_blank_cors).
  - vm_compute. reflexivity.
  - right. exists (lit " , ,,  "). split; vm_compute; reflexivity.
Defined.

(** C2.  When CORS_ALLOWED_ORIGINS is exactly "*", the script binds
    CORS_ALLOW_ALL_ORIGINS to True and prints the warning that all CORS
    origins are allowed. *)
Theorem cors_wildcard_allows_all (w : World) (env : gmap str str) :
  normal_operation w env = true →
  env !! lit "CORS_ALLOWED_ORIGINS" = Some (lit "*") →
  ∃ out s,
    settings w env = (out, inr s)
    ∧ CORS_ALLOW_ALL_ORIGINS s = Some true
    ∧ warn_cors_all ∈ out.
Proof.
  intros Hn Hv.
  destruct (settings_normal w env Hn)
    as (out & s & o1 & o2 & o4 & o5 & H & -> & _ & _ & _ & _ & E5 & _).
  rewrite (cors_block_wildcard env Hv) in E5. injection E5 as Ho _ Ha _.
  exists (o1 ++ o2 ++ o4 ++ o5), s.
  split; [done|]. split; [done|].
  rewrite !elem_of_app. do 3 right. rewrite <- Ho. by left.
Qed.

Lemma cors_wildcard_allows_all_witness :
  ∃ out s,
    settings demo_world env_wildcard = (out, inr s)
    ∧ CORS_ALLOW_ALL_ORIGINS s = Some true
    ∧ warn_cors_all ∈ out.
Proof.
  apply (cors_wildcard_allows_all demo_world env_wildcard).
  - vm_compute. reflexivity.
  - vm_compute. reflexivity.
Defined.

(** C3, as the specification words it, fails: for the value "a,,b" the
    script binds the two origins "a" and "b", while splitting on commas
    and trimming each entry gives three entries, the middle one empty. *)
Lemma cors_split_and_trim_counterexample :
  ∃ out s,
    settings demo_world env_skipped_origin = (out, inr s)
    ∧ env_skipped_origin !! lit "CORS_ALLOWED_ORIGINS" = Some (lit "a,,b")
    ∧ lit "a,,b" ≠ lit "*"
    ∧ CORS_ALLOWED_ORIGINS s = Some [lit "a"; lit "b"]
    ∧ origins_as_specified (lit "a,,b") = [lit "a"; lit ""; lit "b"]
    ∧ CORS_ALLOWED_ORIGINS s ≠ Some (origins_as_specified (lit "a,,b")).
Proof.
  eexists _, _. split; [vm_compute; reflexivity|].
  repeat split; try (vm_compute; reflexivity).
  - intros H. vm_compute in H. discriminate H.
  - intros H. vm_compute in H. discriminate H.
Qed.

(** C3, amended.  For every value of CORS_ALLOWED_ORIGINS other than
    "*" (the empty string standing in for an absent variable), the
    allowed-origin list is the list obtained by splitting the value on
    commas and trimming surrounding whitespace from each entry, with
    the entries that are empty after trimming left out. *)
Theorem cors_split_trim_drop_empty (w : World) (env : gmap str str) :
  normal_operation w env = true →
  env !! lit "CORS_ALLOWED_ORIGINS" ≠ Some (lit "*") →
  ∃ out s,
    settings w env = (out, inr s)
    ∧ CORS_ALLOWED_ORIGINS s
      = Some (filter (fun origin => origin ≠ [])
                (origins_as_specified
                   (default (lit "") (env !! lit "CORS_ALLOWED_ORIGINS")))).
Proof.
  intros Hn Hne.
  destruct (settings_normal w env Hn)
    as (out & s & o1 & o2 & o4 & o5 & H & _ & _ & _ & _ & _ & E5 & _).
  pose proof (cors_block_list env Hne) as E. simpl in E.
  rewrite E in E5. injection E5 as _ _ _ Hl.
  exists out, s. split; [done|].
  unfold origins_as_specified. by rewrite <- stripped_origins_filter.
Qed.

Lemma cors_split_trim_drop_empty_witness :
  ∃ out s,
    settings demo_world env_production = (out, inr s)
    ∧ CORS_ALLOWED_ORIGINS s
      = Some (filter (fun origin => origin ≠ [])
                (origins_as_specified
                   (default (lit "")
                      (env_production !! lit "CORS_ALLOWED_ORIGINS")))).
Proof.
  apply (cors_split_trim_drop_empty demo_world env_production).
  - vm_compute. reflexivity.
  - intros H. vm_compute in H. discriminate H.
Defined.

(** C9.  CORS_ALLOW_CREDENTIALS is True whatever the environment holds,
    also when the wildcard allows every origin. *)
Theorem cors_credentials_always_allowed (w : World) (env : gmap str str) :
  normal_operation w env = true →
  ∃ out s,
    settings w env = (out, inr s)
    ∧ CORS_ALLOW_CREDENTIALS s = true
    ∧ (env !! lit "CORS_ALLOWED_ORIGINS" = Some (lit "*") →
       CORS_ALLOW_ALL_ORIGINS s = Some true ∧ CORS_ALLOW_CREDENTIALS s = true).
Proof.
  intros Hn.
  destruct (settings_normal w env Hn)
    as (out & s & o1 & o2 & o4 & o5 & H & _ & _ & _ & _ & _ & E5 & _).
  exists out, s. split; [done|].
  destruct (decide (env !! lit "CORS_ALLOWED_ORIGINS" = Some (lit "*"))) as [Hv|Hv].
  - rewrite (cors_block_wildcard env Hv) in E5. injection E5 as _ Hc Ha _.
    by split; [|intros _; split].
  - pose proof (cors_block_list env Hv) as E. simpl in E.
    rewrite E in E5. injection E5 as _ Hc _ _. by split.
Qed.

Lemma cors_credentials_always_allowed_witness :
  ∃ out s,
    settings demo_world env_wildcard = (out, inr s)
    ∧ CORS_ALLOW_CREDENTIALS s = true
    ∧ (env_wildcard !! lit "CORS_ALLOWED_ORIGINS" = Some (lit "*") →
       CORS_ALLOW_ALL_ORIGINS s = Some true ∧ CORS_ALLOW_CREDENTIALS s = true).
Proof.
  apply (cors_credentials_always_allowed demo_world env_wildcard).
  vm_compute. reflexivity.
Defined.

(** C10.  The wildcard is recognised only when the variable is exactly
    "*".  For any other value CORS_ALLOW_ALL_ORIGINS is not bound, and
    an entry that trims to "*" is listed as an origin; this is what
    happens for " * " and for "*,example.com". *)
Theorem cors_wildcard_needs_exact_match (w : World) (env : gmap str str) :
  normal_operation w env = true →
  ∃ out s,
    settings w env = (out, inr s)
    ∧ (CORS_ALLOW_ALL_ORIGINS s = Some true
       ↔ env !! lit "CORS_ALLOWED_ORIGINS" = Some (lit "*"))
    ∧ (∀ v piece,
         env !! lit "CORS_ALLOWED_ORIGINS" = Some v → v ≠ lit "*" →
         piece ∈ split comma v → strip piece = lit "*" →
         CORS_ALLOW_ALL_ORIGINS s = None
         ∧ ∃ origins, CORS_ALLOWED_ORIGINS s = Some origins ∧ lit "*" ∈ origins)
    ∧ (∀ v,
         env !! lit "CORS_ALLOWED_ORIGINS" = Some v →
         v = lit " * " ∨ v = lit "*,example.com" →
         CORS_ALLOW_ALL_ORIGINS s = None
         ∧ ∃ origins, CORS_ALLOWED_ORIGINS s = Some origins ∧ lit "*" ∈ origins).
Proof.
  intros Hn.
  destruct (settings_normal w env Hn)
    as (out & s & o1 & o2 & o4 & o5 & H & _ & _ & _ & _ & _ & E5 & _).
  exists out, s. split; [done|].
  assert (∀ v piece,
            env !! lit "CORS_ALLOWED_ORIGINS" = Some v → v ≠ lit "*" →
            piece ∈ split comma v → strip piece = lit "*" →
            CORS_ALLOW_ALL_ORIGINS s = None
            ∧ ∃ origins, CORS_ALLOWED_ORIGINS s = Some origins
                         ∧ lit "*" ∈ origins) as Hgen.
  { intros v piece Hv Hne Hp Hs.
    assert (env !! lit "CORS_ALLOWED_ORIGINS" ≠ Some (lit "*")) as Hne'
      by (rewrite Hv; congruence).
    pose proof (cors_block_list env Hne') as E. simpl in E.
    rewrite E in E5. injection E5 as _ _ Ha Hl.
    split; [done|]. eexists. split; [done|].
    rewrite Hv. simpl. apply elem_of_stripped_origins.
    split; [done|]. by exists piece. }
  split; [|split; [exact Hgen|]].
  - destruct (decide (env !! lit "CORS_ALLOWED_ORIGINS" = Some (lit "*"))) as [Hv|Hv].
    + rewrite (cors_block_wildcard env Hv) in E5. by injection E5 as _ _ Ha _.
    + pose proof (cors_block_list env Hv) as E. simpl in E.
      rewrite E in E5. injection E5 as _ _ Ha _.
      rewrite <- Ha. split; [done | by intros ?].
  - intros v Hv [-> | ->].
    + apply (Hgen _ (lit " * ") Hv);
        [done | vm_compute; by left | vm_compute; reflexivity].
    + apply (Hgen _ (lit "*") Hv);
        [done | vm_compute; by left | vm_compute; reflexivity].
Qed.

Lemma cors_wildcard_needs_exact_match_witness :
  ∃ out s,
    settings demo_world env_spaced_wildcard = (out, inr s)
    ∧ (CORS_ALLOW_ALL_ORIGINS s = Some true
       ↔ env_spaced_wildcard !! lit "CORS_ALLOWED_ORIGINS" = Some (lit "*"))
    ∧ (∀ v piece,
         env_spaced_wildcard !! lit "CORS_ALLOWED_ORIGINS" = Some v → v ≠ lit "*" →
         piece ∈ split comma v → strip piece = lit "*" →
         CORS_ALLOW_ALL_ORIGINS s = None
         ∧ ∃ origins, CORS_ALLOWED_ORIGINS s = Some origins ∧ lit "*" ∈ origins)
    ∧ (∀ v,
         env_spaced_wildcard !! lit "CORS_ALLOWED_ORIGINS" = Some v →
         v = lit " * " ∨ v = lit "*,example.com" →
         CORS_ALLOW_ALL_ORIGINS s = None
         ∧ ∃ origins, CORS_ALLOWED_ORIGINS s = Some origins ∧ lit "*" ∈ origins).
Proof.
  apply (cors_wildcard_needs_exact_match demo_world env_spaced_wildcard).
  vm_compute. reflexivity.
Defined.

(** ** The other settings *)

(** C4.  When DATABASE_URL is absent, the script prints the SQLite
    warning, binds DATABASE_URL to "sqlite:///db.sqlite3", has exactly
    that URL parsed (with conn_max_age 600) for DATABASES["default"],
    and runs to its end without an exception. *)
Theorem database_url_defaults_to_sqlite (w : World) (env : gmap str str) :
  normal_operation w env = true →
  env !! lit "DATABASE_URL" = None →
  ∃ out s cfg,
    settings w env = (out, inr s)
    ∧ DATABASE_URL s = PyStr sqlite_url
    ∧ dj_parse w sqlite_url 600 = inr cfg
    ∧ DATABASES s = [(lit "default", cfg)]
    ∧ warn_sqlite ∈ out.
Proof.
  intros Hn Hv.
  destruct (settings_normal w env Hn)
    as (out & s & o1 & o2 & o4 & o5 & H & -> & _ & _ & _ & E4 & _).
  rewrite (database_block_absent w env Hv) in E4.
  destruct (dj_parse w sqlite_url 600) as [e|cfg]; [done|].
  injection E4 as Ho Hu Hd.
  exists (o1 ++ o2 ++ o4 ++ o5), s, cfg.
  repeat split; try done.
  rewrite !elem_of_app. right. right. left. rewrite <- Ho. by left.
Qed.

Lemma database_url_defaults_to_sqlite_witness :
  ∃ out s cfg,
    settings demo_world ∅ = (out, inr s)
    ∧ DATABASE_URL s = PyStr sqlite_url
    ∧ dj_parse demo_world sqlite_url 600 = inr cfg
    ∧ DATABASES s = [(lit "default", cfg)]
    ∧ warn_sqlite ∈ out.
Proof.
  apply (database_url_defaults_to_sqlite demo_world ∅).
  - vm_compute. reflexivity.
  - vm_compute. reflexivity.
Defined.

(** C5.  When DEBUG is "True" the email backend is the console backend
    and the root and console log levels are DEBUG; for every other
    value, and when DEBUG is absent, the email backend is the SMTP
    backend and both levels are INFO. *)
Theorem debug_selects_backend_and_level (w : World) (env : gmap str str) :
  normal_operation w env = true →
  ∃ out s,
    settings w env = (out, inr s)
    ∧ (env !! lit "DEBUG" = Some (lit "True") →
       EMAIL_BACKEND s = console_backend
       ∧ root_level (LOGGING s) = lit "DEBUG"
       ∧ console_level (LOGGING s) = lit "DEBUG")
    ∧ (env !! lit "DEBUG" ≠ Some (lit "True") →
       EMAIL_BACKEND s = smtp_backend
       ∧ root_level (LOGGING s) = lit "INFO"
       ∧ console_level (LOGGING s) = lit "INFO").
Proof.
  intros Hn.
  destruct (settings_normal w env Hn)
    as (out & s & o1 & o2 & o4 & o5 & H & _ & _ & E2 & _ & _ & _ & El & Ee).
  exists out, s. split; [done|]. rewrite El, Ee. split; intros Hv.
  - rewrite (debug_block_on env Hv) in E2. injection E2 as _ <-. done.
  - rewrite (debug_block_off env Hv) in E2. injection E2 as _ <-. done.
Qed.

Lemma debug_selects_backend_and_level_witness :
  ∃ out s,
    settings demo_world env_debug = (out, inr s)
    ∧ (env_debug !! lit "DEBUG" = Some (lit "True") →
       EMAIL_BACKEND s = console_backend
       ∧ root_level (LOGGING s) = lit "DEBUG"
       ∧ console_level (LOGGING s) = lit "DEBUG")
    ∧ (env_debug !! lit "DEBUG" ≠ Some (lit "True") →
       EMAIL_BACKEND s = smtp_backend
       ∧ root_level (LOGGING s) = lit "INFO"
       ∧ console_level (LOGGING s) = lit "INFO").
Proof.
  apply (debug_selects_backend_and_level demo_world env_debug).
  vm_compute. reflexivity.
Defined.

(** C6.  When SECRET_KEY is absent or empty, the script binds
    SECRET_KEY to the key the generator returns and prints the warning;
    otherwise SECRET_KEY is the value of the variable, unchanged. *)
Theorem secret_key_from_env_or_generated (w : World) (env : gmap str str) :
  normal_operation w env = true →
  ∃ out s,
    settings w env = (out, inr s)
    ∧ (env !! lit "SECRET_KEY" = None ∨ env !! lit "SECRET_KEY" = Some [] →
       SECRET_KEY s = PyStr (get_random_secret_key w)
       ∧ warn_secret_key ∈ out)
    ∧ (∀ v, env !! lit "SECRET_KEY" = Some v → v ≠ [] →
       SECRET_KEY s = PyStr v).
Proof.
  intros Hn.
  destruct (settings_normal w env Hn)
    as (out & s & o1 & o2 & o4 & o5 & H & -> & E1 & _).
  exists (o1 ++ o2 ++ o4 ++ o5), s. split; [done|]. split.
  - intros Hv. rewrite (secret_key_block_missing w env Hv) in E1.
    injection E1 as Ho Hk. split; [done|].
    rewrite elem_of_app. left. rewrite <- Ho. by left.
  - intros v Hv Hne. rewrite (secret_key_block_set w env v Hv Hne) in E1.
    by injection E1 as _ Hk.
Qed.

Lemma secret_key_from_env_or_generated_witness :
  ∃ out s,
    settings demo_world env_production = (out, inr s)
    ∧ (env_production !! lit "SECRET_KEY" = None
       ∨ env_production !! lit "SECRET_KEY" = Some [] →
       SECRET_KEY s = PyStr (get_random_secret_key demo_world)
       ∧ warn_secret_key ∈ out)
    ∧ (∀ v, env_production !! lit "SECRET_KEY" = Some v → v ≠ [] →
       SECRET_KEY s = PyStr v).
Proof.
  apply (secret_key_from_env_or_generated demo_world env_production).
  vm_compute. reflexivity.
Defined.

(** ** The script on examples *)

Example split_examples :
  split comma (lit "") = [lit ""]
  ∧ split comma (lit "localhost") = [lit "localhost"]
  ∧ split comma (lit "a,,b ,") = [lit "a"; lit ""; lit "b "; lit ""].
Proof. repeat split; reflexivity. Qed.

Example strip_examples :
  strip (lit "  a b  ") = lit "a b"
  ∧ strip (lit "   ") = lit ""
  ∧ strip [9; 160; 42; 8195; 10]%N = lit "*".
Proof. repeat split; reflexivity. Qed.

(** With nothing set, only the secret-key, SQLite and CORS warnings
    are printed, in that order. *)
Example settings_unset_output :
  (settings demo_world ∅).1 = [warn_secret_key; warn_sqlite; warn_cors_none].
Proof. vm_compute. reflexivity. Qed.

(** An exception of the URL parser leaves the script: the warnings
    printed before it stay printed, and no namespace results. *)
Example settings_parser_exception :
  let env : gmap str str := {[ lit "DATABASE_URL" := lit "postgres://db:port/loc" ]} in
  settings strict_world env = ([warn_secret_key], inl ValueError)
  ∧ normal_operation strict_world env = false.
Proof. split; vm_compute; reflexivity. Qed.

(** DATABASE_URL set to the empty string: the script warns and binds
    the SQLite URL, but the library, reading the variable itself,
    finds nothing to parse. *)
Example settings_empty_database_url :
  ∃ out s,
    settings strict_world {[ lit "DATABASE_URL" := lit "" ]} = (out, inr s)
    ∧ DATABASE_URL s = PyStr sqlite_url
    ∧ DATABASES s = [(lit "default", [])].
Proof. eexists _, _. by vm_compute. Qed.

(** ** More about [split] and [strip] *)

Section MoreStrFacts.

Implicit Types (s t piece : str) (pieces : list str) (c sep : N).

Lemma split_app_sep sep piece s :
  sep ∉ piece → split sep (piece ++ sep :: s) = piece :: split sep s.
Proof.
  induction piece as [|c piece IH]; intros Hp.
  - apply split_cons_sep.
  - apply not_elem_of_cons in Hp as [Hc Hp].
    change ((c :: piece) ++ sep :: s) with (c :: (piece ++ sep :: s)).
    destruct (split_cons_other sep c (piece ++ sep :: s)) as (p & ps & E1 & E2);
      [congruence|].
    rewrite E2. rewrite (IH Hp) in E1. by injection E1 as <- <-.
Qed.

Lemma split_join sep pieces :
  pieces ≠ [] → Forall (fun piece => sep ∉ piece) pieces →
  split sep (join sep pieces) = pieces.
Proof.
  induction pieces as [|p pieces IH]; [done|]. intros _ [Hp Hps]%Forall_cons.
  destruct pieces as [|q pieces].
  - by apply split_without_sep.
  - change (join sep (p :: q :: pieces)) with (p ++ sep :: join sep (q :: pieces)).
    rewrite split_app_sep by done. by rewrite IH.
Qed.

Lemma split_length sep s :
  length (split sep s) = S (length (filter (fun c => c = sep) s)).
Proof.
  induction s as [|c s IH]; [done|].
  rewrite filter_cons. destruct (decide (c = sep)) as [->|Hc].
  - rewrite split_cons_sep. simpl. by rewrite IH.
  - destruct (split_cons_other sep c s Hc) as (p & ps & E1 & E2).
    rewrite E2. rewrite E1 in IH. done.
Qed.

Lemma lstrip_head s c : head (lstrip s) = Some c → isspace c = false.
Proof.
  induction s as [|a s IH]; simpl; [done|].
  destruct (isspace a) eqn:E; [done|]. simpl. congruence.
Qed.

Lemma lstrip_fixed s :
  (∀ c, head s = Some c → isspace c = false) → lstrip s = s.
Proof.
  destruct s as [|a s]; [done|]. intros H. simpl.
  by rewrite (H a eq_refl).
Qed.

Lemma head_rev s : head (rev s) = last s.
Proof. rewrite rev_alt. apply head_reverse. Qed.

Lemma last_rev s : last (rev s) = head s.
Proof. rewrite rev_alt. apply last_reverse. Qed.

Lemma rstrip_last s c : last (rstrip s) = Some c → isspace c = false.
Proof. unfold rstrip. rewrite last_rev. apply lstrip_head. Qed.

Lemma rstrip_fixed s :
  (∀ c, last s = Some c → isspace c = false) → rstrip s = s.
Proof.
  intros H. unfold rstrip. rewrite lstrip_fixed.
  - apply rev_involutive.
  - intros c. rewrite head_rev. apply H.
Qed.

Lemma rstrip_prefix s :
  ∃ post, s = rstrip s ++ post ∧ Forall (fun c => isspace c = true) post.
Proof.
  destruct (lstrip_suffix (rev s)) as (pre & E & Hpre).
  exists (rev pre). split; [|by apply Forall_rev].
  unfold rstrip. rewrite <- rev_app_distr, <- E. by rewrite rev_involutive.
Qed.

(** [strip] cuts a whitespace prefix and a whitespace suffix, and what
    it leaves neither starts nor ends with whitespace. *)
Lemma strip_spec s :
  ∃ pre post,
    s = pre ++ strip s ++ post
    ∧ Forall (fun c => isspace c = true) pre
    ∧ Forall (fun c => isspace c = true) post
    ∧ (∀ c, head (strip s) = Some c → isspace c = false)
    ∧ (∀ c, last (strip s) = Some c → isspace c = false).
Proof.
  destruct (lstrip_suffix s) as (pre & E1 & Hpre).
  destruct (rstrip_prefix (lstrip s)) as (post & E2 & Hpost).
  exists pre, post. fold (strip s) in E2.
  split; [by rewrite <- E2|]. do 2 (split; [done|]).
  split; [|apply rstrip_last].
  intros c Hc. apply (lstrip_head s).
  rewrite E2. destruct (strip s); [done|]. exact Hc.
Qed.

Lemma strip_fixed s :
  (∀ c, head s = Some c → isspace c = false) →
  (∀ c, last s = Some c → isspace c = false) →
  strip s = s.
Proof.
  intros Hh Hl. unfold strip. rewrite (lstrip_fixed s Hh). by apply rstrip_fixed.
Qed.

Lemma strip_idempotent s : strip (strip s) = strip s.
Proof.
  destruct (strip_spec s) as (_ & _ & _ & _ & _ & Hh & Hl).
  by apply strip_fixed.
Qed.

Lemma elem_of_strip s c : c ∈ strip s → c ∈ s.
Proof.
  destruct (strip_spec s) as (pre & post & E & _).
  intros Hc. rewrite E. rewrite !elem_of_app. auto.
Qed.

End MoreStrFacts.

(** ** What each block prints, and how the script ends *)

Section Runs.

Variable w : World.
Variable env : gmap str str.

Lemma secret_key_block_out :
  (secret_key_block w env).1
  = if secret_key_missing env then [warn_secret_key] else [].
Proof.
  unfold secret_key_missing.
  destruct (env !! lit "SECRET_KEY") as [[|c v]|] eqn:E.
  - rewrite secret_key_block_missing; auto.
  - by rewrite (secret_key_block_set w env (c :: v)).
  - rewrite secret_key_block_missing; auto.
Qed.

Lemma debug_block_eq :
  debug_block env = (if debug_on env then [warn_debug] else [], inr (debug_on env)).
Proof.
  unfold debug_on. case_bool_decide as Hd.
  - by apply debug_block_on.
  - by apply debug_block_off.
Qed.

Lemma database_block_out :
  (database_block w env).1
  = if database_url_missing env then [warn_sqlite] else [].
Proof.
  unfold database_url_missing.
  destruct (env !! lit "DATABASE_URL") as [[|c v]|] eqn:E.
  - by rewrite database_block_empty.
  - by rewrite (database_block_set w env (c :: v)).
  - by rewrite database_block_absent.
Qed.

(** The database block raises exactly what the parser raises on the
    URL in effect. *)
Lemma database_block_raises_iff out e :
  database_block w env = (out, inl e)
  ↔ out = (if database_url_missing env then [warn_sqlite] else [])
    ∧ ∃ url, database_url_parsed env = Some url ∧ dj_parse w url 600 = inl e.
Proof.
  unfold database_url_missing, database_url_parsed.
  destruct (env !! lit "DATABASE_URL") as [[|c v]|] eqn:E.
  - rewrite database_block_empty by done. split; [done|].
    by intros (_ & url & ? & _).
  - rewrite (database_block_set w env (c :: v)) by done. split.
    + destruct (dj_parse w (c :: v) 600) as [e'|cfg] eqn:Ep; [|done].
      intros [= <- <-]. eauto.
    + intros (-> & url & [= <-] & ->). done.
  - rewrite database_block_absent by done. split.
    + destruct (dj_parse w sqlite_url 600) as [e'|cfg] eqn:Ep; [|done].
      intros [= <- <-]. eauto.
    + intros (-> & url & [= <-] & ->). done.
Qed.

Lemma cors_block_out : (cors_block env).1 = cors_warning env.
Proof.
  unfold cors_warning, cors_wildcard, cors_blank. case_bool_decide as Hv.
  - by rewrite cors_block_wildcard.
  - pose proof (cors_block_list env Hv) as E. simpl in E. rewrite E. simpl.
    destruct (forallb comma_or_space _) eqn:Hb.
    + apply stripped_origins_split_nil in Hb. by rewrite Hb.
    + rewrite bool_decide_eq_false_2; [done|].
      intros Hn%stripped_origins_split_nil. congruence.
Qed.

Lemma logging_block_eq base_dir debug :
  logging_block w base_dir debug
  = ([],
     match os_makedirs w (log_dir base_dir) with
     | Some e => inl e
     | None =>
         match path_exists w (log_file_path base_dir) with
         | inl e => inl e
         | inr true => inr (logging_of base_dir debug)
         | inr false =>
             match path_touch w (log_file_path base_dir) with
             | Some e => inl e
             | None => inr (logging_of base_dir debug)
             end
         end
     end).
Proof.
  unfold logging_block.
  destruct (os_makedirs w (log_dir base_dir)); [done|]. simpl.
  destruct (path_exists w (log_file_path base_dir)) as [e|[|]]; [done..|]. simpl.
  by destruct (path_touch w (log_file_path base_dir)).
Qed.

(** The three ways the script can end. *)
Lemma settings_cases :
  match database_block w env with
  | (_, inl e) => settings w env = (warnings_before_cors env, inl e)
  | (_, inr _) =>
      match logging_block w (module_dir w) (debug_on env) with
      | (_, inl e) => settings w env = (warnings_due env, inl e)
      | (_, inr _) => ∃ s, settings w env = (warnings_due env, inr s)
      end
  end.
Proof.
  pose proof secret_key_block_out as O1.
  pose proof database_block_out as O4.
  pose proof cors_block_out as O5.
  destruct (secret_key_block_returns w env) as (o1 & sk & E1).
  destruct (cors_block_returns env) as (o5 & [[cred all] origins] & E5).
  rewrite E1 in O1. rewrite E5 in O5. simpl in O1, O5.
  unfold warnings_due, warnings_before_cors. rewrite <- O1, <- O5, <- O4.
  unfold settings, mbind, Script_bind.
  rewrite E1, debug_block_eq, allowed_hosts_block_eq, E5, logging_block_eq.
  destruct (database_block w env) as [o4 [e|[url dbs]]]; simpl; [done|].
  destruct (os_makedirs w _); simpl.
  { by rewrite ?app_nil_r, <- ?app_assoc. }
  destruct (path_exists w _) as [?|[|]]; simpl.
  { by rewrite ?app_nil_r, <- ?app_assoc. }
  { rewrite ?app_nil_r, <- ?app_assoc. eauto. }
  destruct (path_touch w _); simpl.
  - by rewrite ?app_nil_r, <- ?app_assoc.
  - rewrite ?app_nil_r, <- ?app_assoc. eauto.
Qed.

(** A finished run printed exactly the warnings that were due. *)
Lemma settings_inr_out out s :
  settings w env = (out, inr s) → out = warnings_due env.
Proof.
  pose proof settings_cases as H. intros E.
  destruct (database_block w env) as [o4 [e|r]].
  - rewrite E in H. done.
  - destruct (logging_block w (module_dir w) (debug_on env)) as [o6 [e|lg]].
    + rewrite E in H. done.
    + destruct H as (s' & H). rewrite E in H. by injection H.
Qed.

End Runs.

(** ** Further properties of the script *)

Lemma lstrip_app_space (pre s : str) :
  Forall (fun c => isspace c = true) pre → lstrip (pre ++ s) = lstrip s.
Proof. induction 1 as [|c pre Hc _ IH]; simpl; [done|]. by rewrite Hc. Qed.

(** X1.  [s.split(sep)] is the one non-empty list of separator-free
    pieces that [sep.join] turns back into [s]. *)
Theorem split_characterised (sep : N) (s : str) (pieces : list str) :
  split sep s = pieces
  ↔ pieces ≠ [] ∧ Forall (fun piece => sep ∉ piece) pieces ∧ join sep pieces = s.
Proof.
  split.
  - intros <-. split; [apply split_not_nil|].
    split; [apply split_pieces_no_sep | apply join_split].
  - intros (Hne & Hno & <-). by apply split_join.
Qed.

(** X3.  [s.strip()] is the one middle part of [s] that neither starts
    nor ends with whitespace and has only whitespace before and after
    it. *)
Theorem strip_characterised (s t : str) :
  strip s = t
  ↔ ∃ pre post,
      s = pre ++ t ++ post
      ∧ Forall (fun c => isspace c = true) pre
      ∧ Forall (fun c => isspace c = true) post
      ∧ (∀ c, head t = Some c → isspace c = false)
      ∧ (∀ c, last t = Some c → isspace c = false).
Proof.
  split.
  - intros <-. apply strip_spec.
  - intros (pre & post & -> & Hpre & Hpost & Hh & Hl).
    unfold strip. rewrite lstrip_app_space by done.
    destruct t as [|a t].
    + simpl. rewrite (lstrip_all_space post Hpost). done.
    + rewrite lstrip_fixed by (simpl; intros c [= <-]; by apply Hh).
      unfold rstrip. rewrite rev_app_distr.
      rewrite lstrip_app_space by (by apply Forall_rev).
      rewrite lstrip_fixed; [apply rev_involutive|].
      intros c. rewrite head_rev. apply Hl.
Qed.

(** X2.  ALLOWED_HOSTS is never the empty list, no host in it contains
    a comma, joining the hosts with commas gives back the value of the
    variable ("localhost" when absent) character for character, and
    there is one host more than the value has commas. *)
Theorem allowed_hosts_shape (w : World) (env : gmap str str) :
  normal_operation w env = true →
  let v := default (lit "localhost") (env !! lit "ALLOWED_HOSTS") in
  ∃ out s,
    settings w env = (out, inr s)
    ∧ ALLOWED_HOSTS s ≠ []
    ∧ Forall (fun host => comma ∉ host) (ALLOWED_HOSTS s)
    ∧ join comma (ALLOWED_HOSTS s) = v
    ∧ length (ALLOWED_HOSTS s) = S (length (filter (fun c => c = comma) v)).
Proof.
  intros Hn v.
  destruct (settings_normal w env Hn)
    as (out & s & o1 & o2 & o4 & o5 & H & _ & _ & _ & E3 & _).
  rewrite allowed_hosts_block_eq in E3. injection E3 as E3.
  exists out, s. split; [done|]. rewrite <- E3. fold v.
  split; [apply split_not_nil|].
  split; [apply split_pieces_no_sep|].
  split; [apply join_split | apply split_length].
Qed.

Lemma allowed_hosts_shape_witness :
  let v := default (lit "localhost") (env_production !! lit "ALLOWED_HOSTS") in
  ∃ out s,
    settings demo_world env_production = (out, inr s)
    ∧ ALLOWED_HOSTS s ≠ []
    ∧ Forall (fun host => comma ∉ host) (ALLOWED_HOSTS s)
    ∧ join comma (ALLOWED_HOSTS s) = v
    ∧ length (ALLOWED_HOSTS s) = S (length (filter (fun c => c = comma) v)).
Proof.
  apply (allowed_hosts_shape demo_world env_production).
  vm_compute. reflexivity.
Defined.

(** X4.  Every origin the script lists is non-empty, contains no comma
    and has no whitespace at either end. *)
Theorem cors_origins_are_clean (w : World) (env : gmap str str) :
  normal_operation w env = true →
  ∃ out s,
    settings w env = (out, inr s)
    ∧ ∀ origins, CORS_ALLOWED_ORIGINS s = Some origins →
                 Forall clean_origin origins.
Proof.
  intros Hn.
  destruct (settings_normal w env Hn)
    as (out & s & o1 & o2 & o4 & o5 & H & _ & _ & _ & _ & _ & E5 & _).
  exists out, s. split; [done|]. intros origins Ho.
  destruct (decide (env !! lit "CORS_ALLOWED_ORIGINS" = Some (lit "*"))) as [Hv|Hv].
  { rewrite (cors_block_wildcard env Hv) in E5. injection E5 as _ _ _ E. congruence. }
  pose proof (cors_block_list env Hv) as E. simpl in E.
  rewrite E in E5. injection E5 as _ _ _ E5.
  rewrite Ho in E5. injection E5 as <-.
  apply Forall_forall. intros origin (Hne & piece & Hp & <-)%elem_of_stripped_origins.
  split; [done|]. split; [|apply strip_idempotent].
  intros Hc%elem_of_strip.
  pose proof (split_pieces_no_sep comma
                (default (lit "") (env !! lit "CORS_ALLOWED_ORIGINS"))) as Hno.
  rewrite Forall_forall in Hno. by apply (Hno piece).
Qed.

Lemma cors_origins_are_clean_witness :
  ∃ out s,
    settings demo_world env_production = (out, inr s)
    ∧ ∀ origins, CORS_ALLOWED_ORIGINS s = Some origins →
                 Forall clean_origin origins.
Proof.
  apply (cors_origins_are_clean demo_world env_production).
  vm_compute. reflexivity.
Defined.

Lemma stripped_origins_clean (origins : list str) :
  Forall clean_origin origins → stripped_origins origins = origins.
Proof.
  unfold stripped_origins.
  induction 1 as [|o origins (Hne & _ & Hs) _ IH]; [done|].
  rewrite filter_cons. rewrite decide_True by (by rewrite Hs).
  rewrite fmap_cons. by rewrite Hs, IH.
Qed.

(** X5.  A comma-joined list of clean origins is read back as that very
    list, in order; the one exception is the list holding only "*",
    which the wildcard test takes. *)
Theorem cors_clean_list_round_trip (w : World) (env : gmap str str)
    (origins : list str) :
  normal_operation w env = true →
  Forall clean_origin origins →
  origins ≠ [lit "*"] →
  env !! lit "CORS_ALLOWED_ORIGINS" = Some (join comma origins) →
  ∃ out s,
    settings w env = (out, inr s)
    ∧ CORS_ALLOWED_ORIGINS s = Some origins.
Proof.
  intros Hn Hl Hne Hv.
  assert (Forall (fun piece => comma ∉ piece) origins) as Hno.
  { eapply Forall_impl; [exact Hl|]. by intros o (_ & ? & _). }
  assert (env !! lit "CORS_ALLOWED_ORIGINS" ≠ Some (lit "*")) as Hw.
  { rewrite Hv. intros [= Hj]. apply Hne.
    destruct origins as [|o origins]; [done|].
    rewrite <- (split_join comma (o :: origins)) by done. by rewrite Hj. }
  destruct (settings_normal w env Hn)
    as (out & s & o1 & o2 & o4 & o5 & H & _ & _ & _ & _ & _ & E5 & _).
  pose proof (cors_block_list env Hw) as E. simpl in E.
  rewrite E in E5. injection E5 as _ _ _ E5.
  exists out, s. split; [done|]. rewrite <- E5, Hv. simpl. f_equal.
  destruct origins as [|o origins]; [done|].
  rewrite split_join by done. by apply stripped_origins_clean.
Qed.

Lemma cors_clean_list_round_trip_witness :
  ∃ out s,
    settings demo_world env_two_origins = (out, inr s)
    ∧ CORS_ALLOWED_ORIGINS s = Some two_origins.
Proof.
  apply (cors_clean_list_round_trip demo_world env_two_origins two_origins).
  - vm_compute. reflexivity.
  - repeat constructor; try (vm_compute; reflexivity).
    + intros H. vm_compute in H. discriminate H.
    + apply (bool_decide_unpack (comma ∉ _)). vm_compute. exact I.
    + intros H. vm_compute in H. discriminate H.
    + apply (bool_decide_unpack (comma ∉ _)). vm_compute. exact I.
  - intros H. vm_compute in H. discriminate H.
  - vm_compute. reflexivity.
Defined.

(** X6.  A finished run binds exactly one of CORS_ALLOW_ALL_ORIGINS and
    CORS_ALLOWED_ORIGINS, and the list is empty only when the variable
    is absent, empty, or made of commas and whitespace. *)
Theorem cors_binds_one_name (w : World) (env : gmap str str) :
  normal_operation w env = true →
  ∃ out s,
    settings w env = (out, inr s)
    ∧ ((CORS_ALLOW_ALL_ORIGINS s = Some true ∧ CORS_ALLOWED_ORIGINS s = None)
       ∨ (CORS_ALLOW_ALL_ORIGINS s = None
          ∧ ∃ origins, CORS_ALLOWED_ORIGINS s = Some origins))
    ∧ (CORS_ALLOWED_ORIGINS s = Some []
       ↔ env !! lit "CORS_ALLOWED_ORIGINS" = None
         ∨ ∃ v, env !! lit "CORS_ALLOWED_ORIGINS" = Some v
                ∧ forallb comma_or_space v = true).
Proof.
  intros Hn.
  destruct (settings_normal w env Hn)
    as (out & s & o1 & o2 & o4 & o5 & H & _ & _ & _ & _ & _ & E5 & _).
  exists out, s. split; [done|].
  destruct (decide (env !! lit "CORS_ALLOWED_ORIGINS" = Some (lit "*"))) as [Hv|Hv].
  - rewrite (cors_block_wildcard env Hv) in E5. injection E5 as _ _ Ha Hl.
    split; [by left|]. rewrite <- Hl, Hv. split; [done|].
    intros [? | (v & [= <-] & Hb)]; [done|]. vm_compute in Hb. discriminate Hb.
  - pose proof (cors_block_list env Hv) as E. simpl in E.
    rewrite E in E5. injection E5 as _ _ Ha Hl.
    split; [right; eauto|]. rewrite <- Hl.
    destruct (env !! lit "CORS_ALLOWED_ORIGINS") as [v|]; simpl.
    + split.
      * intros [= Hs]. right. exists v. split; [done|].
        by apply stripped_origins_split_nil.
      * intros [? | (v' & [= <-] & Hb)]; [done|].
        apply stripped_origins_split_nil in Hb. by rewrite Hb.
    + split; [by left | done].
Qed.

Lemma cors_binds_one_name_witness :
  ∃ out s,
    settings demo_world env_wildcard = (out, inr s)
    ∧ ((CORS_ALLOW_ALL_ORIGINS s = Some true ∧ CORS_ALLOWED_ORIGINS s = None)
       ∨ (CORS_ALLOW_ALL_ORIGINS s = None
          ∧ ∃ origins, CORS_ALLOWED_ORIGINS s = Some origins))
    ∧ (CORS_ALLOWED_ORIGINS s = Some []
       ↔ env_wildcard !! lit "CORS_ALLOWED_ORIGINS" = None
         ∨ ∃ v, env_wildcard !! lit "CORS_ALLOWED_ORIGINS" = Some v
                ∧ forallb comma_or_space v = true).
Proof.
  apply (cors_binds_one_name demo_world env_wildcard).
  vm_compute. reflexivity.
Defined.

Lemma secret_key_missing_iff (env : gmap str str) :
  secret_key_missing env = true
  ↔ env !! lit "SECRET_KEY" = None ∨ env !! lit "SECRET_KEY" = Some [].
Proof.
  unfold secret_key_missing.
  destruct (env !! lit "SECRET_KEY") as [[|c v]|]; split; auto; try done; by intros [?|?].
Qed.

Lemma database_url_missing_iff (env : gmap str str) :
  database_url_missing env = true
  ↔ env !! lit "DATABASE_URL" = None ∨ env !! lit "DATABASE_URL" = Some [].
Proof.
  unfold database_url_missing.
  destruct (env !! lit "DATABASE_URL") as [[|c v]|]; split; auto; try done; by intros [?|?].
Qed.

Ltac decide_by_computation :=
  match goal with
  | |- ?P => apply (bool_decide_unpack P); vm_compute; exact I
  end.

Ltac refute_by_computation H :=
  match type of H with
  | ?P => apply (bool_decide_pack P) in H; vm_compute in H; destruct H
  end.

(** Which warnings are due, one by one; the warnings are five different
    lines, so none is mistaken for another. *)
Lemma warnings_due_elem (env : gmap str str) :
  (warn_secret_key ∈ warnings_due env ↔ secret_key_missing env = true)
  ∧ (warn_debug ∈ warnings_due env ↔ debug_on env = true)
  ∧ (warn_sqlite ∈ warnings_due env ↔ database_url_missing env = true)
  ∧ (warn_cors_all ∈ warnings_due env ↔ cors_wildcard env = true)
  ∧ (warn_cors_none ∈ warnings_due env
     ↔ cors_wildcard env = false ∧ cors_blank env = true)
  ∧ NoDup (warnings_due env).
Proof.
  unfold warnings_due, warnings_before_cors, cors_warning.
  destruct (secret_key_missing env), (debug_on env), (database_url_missing env),
    (cors_wildcard env), (cors_blank env);
    repeat apply conj; try decide_by_computation;
    intros H; try done; try decide_by_computation;
    try (by destruct H); refute_by_computation H.
Qed.

(** X7.  A finished run has printed exactly the warnings that were due,
    each once and in the order of the script: secret key, debug mode,
    SQLite, then one of the two CORS warnings; nothing else is printed. *)
Theorem settings_prints_the_due_warnings (w : World) (env : gmap str str) :
  normal_operation w env = true →
  ∃ s, settings w env = (warnings_due env, inr s).
Proof.
  intros (out & s & H)%settings_returns_iff.
  exists s. by rewrite <- (settings_inr_out w env out s H).
Qed.

Lemma settings_prints_the_due_warnings_witness :
  ∃ s, settings demo_world env_debug = (warnings_due env_debug, inr s).
Proof.
  apply (settings_prints_the_due_warnings demo_world env_debug).
  vm_compute. reflexivity.
Defined.

(** X8.  In a finished run each warning appears exactly when its cause
    is there: the secret-key warning when SECRET_KEY is absent or
    empty, the debug warning when DEBUG is "True", the SQLite warning
    when DATABASE_URL is absent or empty, the all-origins warning when
    CORS_ALLOWED_ORIGINS is "*", the no-origins warning when the origin
    list is empty; and no warning appears twice. *)
Theorem warnings_match_their_causes (w : World) (env : gmap str str) :
  normal_operation w env = true →
  ∃ out s,
    settings w env = (out, inr s)
    ∧ (warn_secret_key ∈ out
       ↔ env !! lit "SECRET_KEY" = None ∨ env !! lit "SECRET_KEY" = Some [])
    ∧ (warn_debug ∈ out ↔ env !! lit "DEBUG" = Some (lit "True"))
    ∧ (warn_sqlite ∈ out
       ↔ env !! lit "DATABASE_URL" = None ∨ env !! lit "DATABASE_URL" = Some [])
    ∧ (warn_cors_all ∈ out ↔ env !! lit "CORS_ALLOWED_ORIGINS" = Some (lit "*"))
    ∧ (warn_cors_none ∈ out ↔ CORS_ALLOWED_ORIGINS s = Some [])
    ∧ NoDup out.
Proof.
  intros Hn.
  destruct (settings_normal w env Hn)
    as (out & s & o1 & o2 & o4 & o5 & H & _ & _ & _ & _ & _ & E5 & _).
  pose proof (settings_inr_out w env out s H) as ->.
  destruct (warnings_due_elem env) as (H1 & H2 & H3 & H4 & H5 & Hnd).
  exists (warnings_due env), s. split; [done|].
  rewrite H1, H2, H3, H4, H5.
  split; [apply secret_key_missing_iff|].
  split; [apply bool_decide_eq_true|].
  split; [apply database_url_missing_iff|].
  split; [apply bool_decide_eq_true|].
  split; [|done].
  unfold cors_wildcard, cors_blank. case_bool_decide as Hv.
  - rewrite (cors_block_wildcard env Hv) in E5. injection E5 as _ _ _ <-.
    split; [by intros [? _] | done].
  - pose proof (cors_block_list env Hv) as E. simpl in E.
    rewrite E in E5. injection E5 as _ _ _ <-.
    rewrite <- stripped_origins_split_nil. split.
    + by intros [_ ->].
    + by intros [= ->].
Qed.

Lemma warnings_match_their_causes_witness :
  ∃ out s,
    settings demo_world env_debug = (out, inr s)
    ∧ (warn_secret_key ∈ out
       ↔ env_debug !! lit "SECRET_KEY" = None
         ∨ env_debug !! lit "SECRET_KEY" = Some [])
    ∧ (warn_debug ∈ out ↔ env_debug !! lit "DEBUG" = Some (lit "True"))
    ∧ (warn_sqlite ∈ out
       ↔ env_debug !! lit "DATABASE_URL" = None
         ∨ env_debug !! lit "DATABASE_URL" = Some [])
    ∧ (warn_cors_all ∈ out
       ↔ env_debug !! lit "CORS_ALLOWED_ORIGINS" = Some (lit "*"))
    ∧ (warn_cors_none ∈ out ↔ CORS_ALLOWED_ORIGINS s = Some [])
    ∧ NoDup out.
Proof.
  apply (warnings_match_their_causes demo_world env_debug).
  vm_compute. reflexivity.
Defined.

(** Lines 17-212 raise exactly what the four calls in them raise. *)
Lemma settings_raises_iff (w : World) (env : gmap str str) (out : list str)
    (e : exn) :
  settings w env = (out, inl e)
  ↔ (out = warnings_before_cors env
     ∧ ∃ url, database_url_parsed env = Some url ∧ dj_parse w url 600 = inl e)
    ∨ (out = warnings_due env
       ∧ database_url_accepted w env = true
       ∧ os_makedirs w (log_dir (module_dir w)) = Some e)
    ∨ (out = warnings_due env
       ∧ database_url_accepted w env = true
       ∧ os_makedirs w (log_dir (module_dir w)) = None
       ∧ path_exists w (log_file_path (module_dir w)) = inl e)
    ∨ (out = warnings_due env
       ∧ database_url_accepted w env = true
       ∧ os_makedirs w (log_dir (module_dir w)) = None
       ∧ path_exists w (log_file_path (module_dir w)) = inr false
       ∧ path_touch w (log_file_path (module_dir w)) = Some e).
Proof.
  pose proof (settings_cases w env) as Hc.
  pose proof (database_block_returns_iff w env) as Hr.
  fold (database_url_accepted w env) in Hr.
  destruct (database_block w env) as [o4 [e'|r]] eqn:E4.
  - apply database_block_raises_iff in E4 as (_ & url' & Hu' & Hp').
    assert (database_url_accepted w env = false) as Hf.
    { unfold database_url_accepted. by rewrite Hu', Hp'. }
    rewrite Hc, Hf. split.
    + intros [= <- <-]. left. eauto.
    + intros [(-> & url & Hu & Hp) | [(_ & ? & _) | [(_ & ? & _) | (_ & ? & _)]]];
        [|done..].
      congruence.
  - assert (database_url_accepted w env = true) as Ht by (apply Hr; eauto).
    assert (∀ url, database_url_parsed env = Some url →
                   dj_parse w url 600 ≠ inl e) as Hno.
    { intros url Hu Hp. unfold database_url_accepted in Ht.
      by rewrite Hu, Hp in Ht. }
    rewrite logging_block_eq in Hc. rewrite Ht.
    destruct (os_makedirs w _) as [e1|].
    { rewrite Hc. split.
      - intros [= <- <-]. right. left. done.
      - intros [(_ & url & Hu & Hp)
               | [(-> & _ & [= ->]) | [(_ & _ & ? & _) | (_ & _ & ? & _)]]];
          [by apply Hno in Hp | done..]. }
    destruct (path_exists w _) as [e2|[|]].
    { rewrite Hc. split.
      - intros [= <- <-]. right. right. left. done.
      - intros [(_ & url & Hu & Hp)
               | [(_ & _ & ?) | [(-> & _ & _ & [= ->]) | (_ & _ & _ & ? & _)]]];
          [by apply Hno in Hp | done..]. }
    { destruct Hc as (s & ->). split; [done|].
      intros [(_ & url & Hu & Hp)
             | [(_ & _ & ?) | [(_ & _ & _ & ?) | (_ & _ & _ & ? & _)]]];
        [by apply Hno in Hp | done..]. }
    destruct (path_touch w _) as [e3|].
    + rewrite Hc. split.
      * intros [= <- <-]. right. right. right. done.
      * intros [(_ & url & Hu & Hp)
               | [(_ & _ & ?) | [(_ & _ & _ & ?) | (-> & _ & _ & _ & [= ->])]]];
          [by apply Hno in Hp | done..].
    + destruct Hc as (s & ->). split; [done|].
      intros [(_ & url & Hu & Hp)
             | [(_ & _ & ?) | [(_ & _ & _ & ?) | (_ & _ & _ & _ & ?)]]];
        [by apply Hno in Hp | done..].
Qed.

(** What line 13 adds to a run of lines 17-212. *)
Lemma settings_module_eq (w : World) (environ : gmap str str) :
  settings_module w environ
  = match load_dotenv w (dotenv_path (module_dir w)) environ with
    | inl e => ([], inl e)
    | inr env => settings w env
    end.
Proof.
  unfold settings_module, call, mbind, Script_bind.
  destruct (load_dotenv w _ environ) as [e|env]; [done|].
  by destruct (settings w env).
Qed.

(** X9.  Of the calls the module makes from line 13 on, five can stop
    it, and the exception that leaves the module is the one the call
    raised: [load_dotenv], before anything is printed; the URL parser,
    after the first three warnings and before any CORS warning;
    [os.makedirs], [exists] and, for a log file that is not there,
    [touch], after every warning due.  Between these calls the script
    raises nothing of its own.  (Imports, [print], [os.getenv], path
    arithmetic and the key generator are taken to return.) *)
Theorem settings_raises_only_what_the_calls_raise
    (w : World) (environ : gmap str str) (out : list str) (e : exn) :
  settings_module w environ = (out, inl e)
  ↔ (out = [] ∧ load_dotenv w (dotenv_path (module_dir w)) environ = inl e)
    ∨ ∃ env,
        load_dotenv w (dotenv_path (module_dir w)) environ = inr env
        ∧ ((out = warnings_before_cors env
            ∧ ∃ url, database_url_parsed env = Some url
                     ∧ dj_parse w url 600 = inl e)
           ∨ (out = warnings_due env
              ∧ database_url_accepted w env = true
              ∧ os_makedirs w (log_dir (module_dir w)) = Some e)
           ∨ (out = warnings_due env
              ∧ database_url_accepted w env = true
              ∧ os_makedirs w (log_dir (module_dir w)) = None
              ∧ path_exists w (log_file_path (module_dir w)) = inl e)
           ∨ (out = warnings_due env
              ∧ database_url_accepted w env = true
              ∧ os_makedirs w (log_dir (module_dir w)) = None
              ∧ path_exists w (log_file_path (module_dir w)) = inr false
              ∧ path_touch w (log_file_path (module_dir w)) = Some e)).
Proof.
  rewrite settings_module_eq.
  destruct (load_dotenv w _ environ) as [e'|env].
  - split.
    + intros [= <- <-]. by left.
    + intros [(-> & [= ->]) | (env & ? & _)]; done.
  - rewrite settings_raises_iff. split.
    + intros H. right. by exists env.
    + intros [(_ & ?) | (env' & [= <-] & H)]; done.
Qed.

(** Two worlds that agree on what the blocks see give the same run. *)
Lemma settings_ext (w w' : World) (env : gmap str str) :
  module_dir w' = module_dir w →
  secret_key_block w' env = secret_key_block w env →
  database_block w' env = database_block w env →
  (∀ debug, logging_block w' (module_dir w) debug
            = logging_block w (module_dir w) debug) →
  settings w' env = settings w env.
Proof.
  intros Hd Hs Hb Hl. unfold settings, mbind, Script_bind.
  rewrite Hd, Hs, Hb.
  destruct (secret_key_block w env) as [o1 [?|sk]]; [done|].
  destruct (debug_block env) as [o2 [?|dbg]]; [done|].
  destruct (allowed_hosts_block env) as [o3 [?|hosts]]; [done|].
  destruct (database_block w env) as [o4 [?|[url dbs]]]; [done|].
  destruct (cors_block env) as [o5 [?|[[cred all] origins]]]; [done|].
  by rewrite Hl.
Qed.

(** X10.  A log file that is already there is never touched: whatever
    [touch] would do, even raise, the run is the same. *)
Theorem existing_log_file_is_not_touched
    (w : World) (env : gmap str str) (touch : path → option exn) :
  path_exists w (log_file_path (module_dir w)) = inr true →
  settings (with_touch w touch) env = settings w env.
Proof.
  intros He. apply settings_ext; try reflexivity.
  intros debug. rewrite !logging_block_eq. simpl. by rewrite He.
Qed.

Lemma existing_log_file_is_not_touched_witness :
  settings (with_touch strict_world (fun _ => None)) env_debug
  = settings strict_world env_debug.
Proof.
  apply (existing_log_file_is_not_touched strict_world env_debug).
  vm_compute. reflexivity.
Defined.

(** X11.  DATABASE_URL set to the empty string: the script warns and
    binds DATABASE_URL to the SQLite URL, but [dj_database_url.config],
    which reads the variable itself, finds nothing to parse, so that
    DATABASES["default"] is the empty dictionary and the parser has no
    part in the run. *)
Theorem empty_database_url_is_not_parsed
    (w : World) (env : gmap str str) (parse : str → Z → exn + DbConfig) :
  normal_operation w env = true →
  env !! lit "DATABASE_URL" = Some [] →
  settings (with_parser w parse) env = settings w env
  ∧ ∃ out s,
      settings w env = (out, inr s)
      ∧ DATABASE_URL s = PyStr sqlite_url
      ∧ DATABASES s = [(lit "default", [])]
      ∧ warn_sqlite ∈ out.
Proof.
  intros Hn Hv. split.
  - apply settings_ext; try reflexivity.
    by rewrite !database_block_empty.
  - destruct (settings_normal w env Hn)
      as (out & s & o1 & o2 & o4 & o5 & H & -> & _ & _ & _ & E4 & _).
    rewrite (database_block_empty w env Hv) in E4. injection E4 as Ho Hu Hd.
    exists (o1 ++ o2 ++ o4 ++ o5), s. repeat split; try done.
    rewrite !elem_of_app. right. right. left. rewrite <- Ho. by left.
Qed.

Lemma empty_database_url_is_not_parsed_witness :
  settings (with_parser strict_world (fun _ _ => inl ValueError))
           env_empty_database_url
  = settings strict_world env_empty_database_url
  ∧ ∃ out s,
      settings strict_world env_empty_database_url = (out, inr s)
      ∧ DATABASE_URL s = PyStr sqlite_url
      ∧ DATABASES s = [(lit "default", [])]
      ∧ warn_sqlite ∈ out.
Proof.
  apply (empty_database_url_is_not_parsed strict_world env_empty_database_url).
  - vm_compute. reflexivity.
  - vm_compute. reflexivity.
Defined.

(** X12.  A non-empty DATABASE_URL is taken as it is: the setting holds
    the value of the variable, DATABASES["default"] is the parse of
    that value with conn_max_age 600, and the SQLite warning is not
    printed. *)
Theorem database_url_from_environment
    (w : World) (env : gmap str str) (url : str) :
  normal_operation w env = true →
  env !! lit "DATABASE_URL" = Some url →
  url ≠ [] →
  ∃ out s cfg,
    settings w env = (out, inr s)
    ∧ DATABASE_URL s = PyStr url
    ∧ dj_parse w url 600 = inr cfg
    ∧ DATABASES s = [(lit "default", cfg)]
    ∧ warn_sqlite ∉ out.
Proof.
  intros Hn Hv Hne.
  destruct (settings_normal w env Hn)
    as (out & s & o1 & o2 & o4 & o5 & H & _ & _ & _ & _ & E4 & _).
  rewrite (database_block_set w env url Hv Hne) in E4.
  destruct (dj_parse w url 600) as [e|cfg]; [done|].
  injection E4 as _ Hu Hd.
  exists out, s, cfg. repeat split; try done.
  rewrite (settings_inr_out w env out s H).
  destruct (warnings_due_elem env) as (_ & _ & -> & _).
  rewrite database_url_missing_iff, Hv.
  intros [? | [= ?]]; done.
Qed.

Lemma database_url_from_environment_witness :
  ∃ out s cfg,
    settings demo_world env_production = (out, inr s)
    ∧ DATABASE_URL s = PyStr (lit "postgres://u:p@db:5432/loc")
    ∧ dj_parse demo_world (lit "postgres://u:p@db:5432/loc") 600 = inr cfg
    ∧ DATABASES s = [(lit "default", cfg)]
    ∧ warn_sqlite ∉ out.
Proof.
  apply (database_url_from_environment demo_world env_production).
  - vm_compute. reflexivity.
  - vm_compute. reflexivity.
  - intros H. vm_compute in H. discriminate H.
Defined.

Lemma settings_inr_email (w : World) (env : gmap str str) out s :
  settings w env = (out, inr s) →
  DEFAULT_FROM_EMAIL s = os_getenv env (lit "DEFAULT_FROM_EMAIL") PyNone
  ∧ EMAIL_HOST s = os_getenv env (lit "EMAIL_HOST") PyNone
  ∧ EMAIL_PORT s = os_getenv env (lit "EMAIL_PORT") (PyInt 587)
  ∧ EMAIL_USE_TLS s
    = value_eqb (os_getenv env (lit "EMAIL_USE_TLS") (PyStr (lit "True")))
                (PyStr (lit "True"))
  ∧ EMAIL_HOST_USER s = os_getenv env (lit "EMAIL_HOST_USER") PyNone
  ∧ EMAIL_HOST_PASSWORD s = os_getenv env (lit "EMAIL_HOST_PASSWORD") PyNone.
Proof.
  unfold settings. intros H.
  apply bind_inr_inv in H as (o1 & sk & r1 & E1 & H & ->).
  apply bind_inr_inv in H as (o2 & dbg & r2 & E2 & H & ->).
  apply bind_inr_inv in H as (o3 & hosts & r3 & E3 & H & ->).
  apply bind_inr_inv in H as (o4 & [url dbs] & r4 & E4 & H & ->).
  apply bind_inr_inv in H as (o5 & [[cred all] origins] & r5 & E5 & H & ->).
  apply bind_inr_inv in H as (o6 & lg & r6 & E6 & H & ->).
  by injection H as <- <-.
Qed.

(** X13.  The email settings are read whatever DEBUG is.  EMAIL_PORT is
    the integer 587 only when the variable is absent; a value from the
    environment is kept as the string it is, never converted.
    EMAIL_USE_TLS is on when the variable is absent or exactly "True",
    and off for every other value.  The host, user, password and
    sender are the value of their variable, or None. *)
Theorem email_settings_from_environment (w : World) (env : gmap str str) :
  normal_operation w env = true →
  ∃ out s,
    settings w env = (out, inr s)
    ∧ EMAIL_PORT s
      = match env !! lit "EMAIL_PORT" with
        | Some v => PyStr v
        | None => PyInt 587
        end
    ∧ (EMAIL_USE_TLS s = true
       ↔ env !! lit "EMAIL_USE_TLS" = None
         ∨ env !! lit "EMAIL_USE_TLS" = Some (lit "True"))
    ∧ EMAIL_HOST s = from_option PyStr PyNone (env !! lit "EMAIL_HOST")
    ∧ EMAIL_HOST_USER s = from_option PyStr PyNone (env !! lit "EMAIL_HOST_USER")
    ∧ EMAIL_HOST_PASSWORD s
      = from_option PyStr PyNone (env !! lit "EMAIL_HOST_PASSWORD")
    ∧ DEFAULT_FROM_EMAIL s
      = from_option PyStr PyNone (env !! lit "DEFAULT_FROM_EMAIL").
Proof.
  intros (out & s & H)%settings_returns_iff.
  destruct (settings_inr_email w env out s H) as (E1 & E2 & E3 & E4 & E5 & E6).
  exists out, s. split; [done|]. rewrite E1, E2, E3, E4, E5, E6. unfold os_getenv.
  split; [done|]. split; [|by repeat split; destruct (env !! _)].
  destruct (env !! lit "EMAIL_USE_TLS") as [v|]; simpl.
  - rewrite bool_decide_eq_true. split; [intros [= ->]; by right|].
    by intros [? | [= ->]].
  - split; [by left | done].
Qed.

Lemma email_settings_from_environment_witness :
  ∃ out s,
    settings demo_world env_mail = (out, inr s)
    ∧ EMAIL_PORT s
      = match env_mail !! lit "EMAIL_PORT" with
        | Some v => PyStr v
        | None => PyInt 587
        end
    ∧ (EMAIL_USE_TLS s = true
       ↔ env_mail !! lit "EMAIL_USE_TLS" = None
         ∨ env_mail !! lit "EMAIL_USE_TLS" = Some (lit "True"))
    ∧ EMAIL_HOST s = from_option PyStr PyNone (env_mail !! lit "EMAIL_HOST")
    ∧ EMAIL_HOST_USER s
      = from_option PyStr PyNone (env_mail !! lit "EMAIL_HOST_USER")
    ∧ EMAIL_HOST_PASSWORD s
      = from_option PyStr PyNone (env_mail !! lit "EMAIL_HOST_PASSWORD")
    ∧ DEFAULT_FROM_EMAIL s
      = from_option PyStr PyNone (env_mail !! lit "DEFAULT_FROM_EMAIL").
Proof.
  apply (email_settings_from_environment demo_world env_mail).
  vm_compute. reflexivity.
Defined.

(** X14.  SECRET_KEY is never None and never empty in a finished run,
    as long as the generator returns a non-empty key: it is a non-empty
    string, either the value of the variable or the generated key. *)
Theorem secret_key_is_never_empty (w : World) (env : gmap str str) :
  normal_operation w env = true →
  get_random_secret_key w ≠ [] →
  ∃ out s key,
    settings w env = (out, inr s)
    ∧ SECRET_KEY s = PyStr key
    ∧ key ≠ []
    ∧ (env !! lit "SECRET_KEY" = Some key ∨ key = get_random_secret_key w).
Proof.
  intros Hn Hg.
  destruct (settings_normal w env Hn)
    as (out & s & o1 & o2 & o4 & o5 & H & _ & E1 & _).
  destruct (env !! lit "SECRET_KEY") as [[|c v]|] eqn:E.
  - rewrite secret_key_block_missing in E1 by auto. injection E1 as _ E1.
    exists out, s, (get_random_secret_key w). auto.
  - rewrite (secret_key_block_set w env (c :: v)) in E1 by done.
    injection E1 as _ E1. exists out, s, (c :: v). auto.
  - rewrite secret_key_block_missing in E1 by auto. injection E1 as _ E1.
    exists out, s, (get_random_secret_key w). auto.
Qed.

Lemma secret_key_is_never_empty_witness :
  ∃ out s key,
    settings demo_world env_empty_database_url = (out, inr s)
    ∧ SECRET_KEY s = PyStr key
    ∧ key ≠ []
    ∧ (env_empty_database_url !! lit "SECRET_KEY" = Some key
       ∨ key = get_random_secret_key demo_world).
Proof.
  apply (secret_key_is_never_empty demo_world env_empty_database_url).
  - vm_compute. reflexivity.
  - intros H. vm_compute in H. discriminate H.
Defined.

(** X15.  DEBUG is on only for the exact value "True".  The console
    handler formats verbosely when DEBUG is on and simply otherwise,
    while the file handler is the same in every run: level WARNING,
    writing to logs/django.log under BASE_DIR, and the root logger
    feeds both handlers. *)
Theorem debug_flag_and_log_handlers (w : World) (env : gmap str str) :
  normal_operation w env = true →
  ∃ out s,
    settings w env = (out, inr s)
    ∧ (DEBUG s = true ↔ env !! lit "DEBUG" = Some (lit "True"))
    ∧ console_formatter (LOGGING s)
      = (if DEBUG s then lit "verbose" else lit "simple")
    ∧ file_level (LOGGING s) = lit "WARNING"
    ∧ file_filename (LOGGING s) = BASE_DIR s ++ [lit "logs"; lit "django.log"]
    ∧ root_handlers (LOGGING s) = [lit "console"; lit "file"].
Proof.
  intros (out & s & H)%settings_returns_iff.
  destruct (settings_inr_inv w env out s H)
    as (o1 & o2 & o4 & o5 & _ & _ & E2 & _ & _ & _ & E6 & _ & Hb).
  apply logging_block_value in E6 as [_ El].
  rewrite debug_block_eq in E2. injection E2 as _ E2.
  exists out, s. split; [done|]. rewrite El, <- E2, Hb.
  split; [apply bool_decide_eq_true|]. repeat split.
  unfold logging_of, log_file_path, log_dir. simpl. by rewrite <- app_assoc.
Qed.

Lemma debug_flag_and_log_handlers_witness :
  ∃ out s,
    settings demo_world env_debug = (out, inr s)
    ∧ (DEBUG s = true ↔ env_debug !! lit "DEBUG" = Some (lit "True"))
    ∧ console_formatter (LOGGING s)
      = (if DEBUG s then lit "verbose" else lit "simple")
    ∧ file_level (LOGGING s) = lit "WARNING"
    ∧ file_filename (LOGGING s) = BASE_DIR s ++ [lit "logs"; lit "django.log"]
    ∧ root_handlers (LOGGING s) = [lit "console"; lit "file"].
Proof.
  apply (debug_flag_and_log_handlers demo_world env_debug).
  vm_compute. reflexivity.
Defined.

(** X16.  The script reads eleven environment variables and no other:
    two environments that agree on them give the same output and the
    same namespace, or the same exception. *)
Theorem settings_reads_only_its_variables (w : World) (env env' : gmap str str) :
  (∀ key, key ∈ settings_variables → env !! key = env' !! key) →
  settings w env = settings w env'.
Proof.
  intros H.
  assert (∀ key, bool_decide (key ∈ settings_variables) = true →
                 env !! key = env' !! key) as Hk.
  { intros key Hin. apply H. by apply bool_decide_eq_true in Hin. }
  unfold settings, secret_key_block, debug_block, allowed_hosts_block,
    database_block, dj_database_url_config, cors_block, os_getenv.
  rewrite (Hk (lit "SECRET_KEY")) by (vm_compute; reflexivity).
  rewrite (Hk (lit "DEBUG")) by (vm_compute; reflexivity).
  rewrite (Hk (lit "ALLOWED_HOSTS")) by (vm_compute; reflexivity).
  rewrite (Hk (lit "DATABASE_URL")) by (vm_compute; reflexivity).
  rewrite (Hk (lit "CORS_ALLOWED_ORIGINS")) by (vm_compute; reflexivity).
  rewrite (Hk (lit "DEFAULT_FROM_EMAIL")) by (vm_compute; reflexivity).
  rewrite (Hk (lit "EMAIL_HOST")) by (vm_compute; reflexivity).
  rewrite (Hk (lit "EMAIL_PORT")) by (vm_compute; reflexivity).
  rewrite (Hk (lit "EMAIL_USE_TLS")) by (vm_compute; reflexivity).
  rewrite (Hk (lit "EMAIL_HOST_USER")) by (vm_compute; reflexivity).
  rewrite (Hk (lit "EMAIL_HOST_PASSWORD")) by (vm_compute; reflexivity).
  reflexivity.
Qed.

Lemma settings_reads_only_its_variables_witness :
  settings demo_world env_debug
  = settings demo_world (<[ lit "HOME" := lit "/root" ]> env_debug).
Proof.
  apply (settings_reads_only_its_variables demo_world env_debug).
  intros key Hin. symmetry. apply lookup_insert_ne.
  intros <-. refute_by_computation Hin.
Defined.

(** X17.  The URL parser is asked about one URL at most, the database
    URL in effect with conn_max_age 600: a parser that answers the same
    there gives the same run, whatever it does elsewhere. *)
Theorem parser_sees_only_the_url_in_effect
    (w : World) (env : gmap str str) (parse : str → Z → exn + DbConfig) :
  (∀ url, database_url_parsed env = Some url →
          parse url 600%Z = dj_parse w url 600) →
  settings (with_parser w parse) env = settings w env.
Proof.
  intros Hp. apply settings_ext; try reflexivity.
  unfold database_url_parsed in Hp.
  destruct (env !! lit "DATABASE_URL") as [[|c url]|] eqn:E.
  - by rewrite !database_block_empty.
  - rewrite !(database_block_set _ env (c :: url)) by done. simpl.
    by rewrite (Hp (c :: url)).
  - rewrite !database_block_absent by done. simpl.
    by rewrite (Hp sqlite_url).
Qed.

Lemma parser_sees_only_the_url_in_effect_witness :
  settings
    (with_parser strict_world
       (fun url age =>
          if bool_decide (url = sqlite_url)
          then dj_parse strict_world url age else inr []))
    ∅
  = settings strict_world ∅.
Proof.
  apply (parser_sees_only_the_url_in_effect strict_world ∅).
  intros url Hu. vm_compute in Hu. injection Hu as <-.
  vm_compute. reflexivity.
Defined.

(** ** The host list and the whole import *)

(** C7.  ALLOWED_HOSTS is a list of strings, the value of the variable
    ALLOWED_HOSTS ("localhost" when absent) split on commas: it is the
    one non-empty list of comma-free strings whose comma-join is that
    value, so that a value naming several hosts gives them one by one,
    and an absent variable gives the one-element list ["localhost"]. *)
Theorem allowed_hosts_is_split_list (w : World) (env : gmap str str) :
  normal_operation w env = true →
  let v := default (lit "localhost") (env !! lit "ALLOWED_HOSTS") in
  ∃ out s,
    settings w env = (out, inr s)
    ∧ ALLOWED_HOSTS s = split comma v
    ∧ (∀ hosts,
         ALLOWED_HOSTS s = hosts
         ↔ hosts ≠ []
           ∧ Forall (fun host => comma ∉ host) hosts
           ∧ join comma hosts = v)
    ∧ (∀ first second,
         comma ∉ first → comma ∉ second →
         v = first ++ comma :: second →
         ALLOWED_HOSTS s = [first; second])
    ∧ (env !! lit "ALLOWED_HOSTS" = None → ALLOWED_HOSTS s = [lit "localhost"]).
Proof.
  intros Hn v.
  destruct (settings_normal w env Hn)
    as (out & s & o1 & o2 & o4 & o5 & H & _ & _ & _ & E3 & _).
  rewrite allowed_hosts_block_eq in E3. injection E3 as E3. fold v in E3.
  exists out, s. split; [done|]. rewrite <- E3. split; [done|].
  assert (∀ hosts,
            split comma v = hosts
            ↔ hosts ≠ [] ∧ Forall (fun host => comma ∉ host) hosts
              ∧ join comma hosts = v) as Hiff.
  { intros hosts. split.
    - intros <-. split; [apply split_not_nil|].
      split; [apply split_pieces_no_sep | apply join_split].
    - intros (Hne & Hno & <-). by apply split_join. }
  split; [exact Hiff|]. split.
  - intros first second Hf Hs Hv. apply Hiff.
    split; [done|]. split; [by repeat constructor|]. by rewrite Hv.
  - intros Hv. subst v. by rewrite Hv.
Qed.

Lemma allowed_hosts_is_split_list_witness :
  ∃ out s,
    settings demo_world env_production = (out, inr s)
    ∧ ALLOWED_HOSTS s = [lit "api.example.org"; lit "example.org"].
Proof.
  destruct (allowed_hosts_is_split_list demo_world env_production)
    as (out & s & H & _ & _ & Htwo & _).
  - vm_compute. reflexivity.
  - exists out, s. split; [exact H|].
    apply Htwo.
    + apply (bool_decide_unpack (comma ∉ _)). vm_compute. exact I.
    + apply (bool_decide_unpack (comma ∉ _)). vm_compute. exact I.
    + vm_compute. reflexivity.
Defined.

(** The whole import returns exactly when line 13 returns and what
    follows runs normally. *)
Lemma settings_module_returns_iff (w : World) (environ : gmap str str) :
  (∃ out s, settings_module w environ = (out, inr s))
  ↔ normal_import w environ = true.
Proof.
  unfold normal_import. rewrite settings_module_eq.
  destruct (load_dotenv w _ environ) as [e|env].
  - split; [by intros (? & ? & ?) | done].
  - apply settings_returns_iff.
Qed.

(** C8, as the specification words it, fails: DATABASE_URL is one of
    the variables of the interface table, and for a value whose port is
    not a number the URL parser raises ValueError at line 96; the
    exception leaves the module after the secret-key warning and no
    namespace results. *)
Lemma settings_raises_on_rejected_url_counterexample :
  env_bad_port !! lit "DATABASE_URL" = Some (lit "postgres://db:port/loc")
  ∧ settings_module strict_world env_bad_port
    = ([warn_secret_key], inl ValueError)
  ∧ ¬ ∃ out s, settings_module strict_world env_bad_port = (out, inr s).
Proof.
  split; [vm_compute; reflexivity|].
  assert (settings_module strict_world env_bad_port
          = ([warn_secret_key], inl ValueError)) as E
    by (vm_compute; reflexivity).
  split; [exact E|]. intros (out & s & H). rewrite E in H. discriminate H.
Qed.

(** C8, amended.  For every assignment of the environment variables,
    evaluating the settings module raises no exception as long as the
    calls it makes outside itself return: [load_dotenv], the parse of
    the database URL in effect, [os.makedirs], [exists] and, when the
    log file is not there, [touch].  Then the secret-key fallback, the
    debug toggle, the host list, the database block, the CORS
    derivation, the log file creation and the email defaults each
    return, and the module ends with a namespace, having printed the
    warnings due. *)
Theorem settings_module_returns_when_its_calls_return
    (w : World) (environ env : gmap str str) :
  load_dotenv w (dotenv_path (module_dir w)) environ = inr env →
  (∀ url, database_url_parsed env = Some url →
          ∃ cfg, dj_parse w url 600 = inr cfg) →
  os_makedirs w (log_dir (module_dir w)) = None →
  (path_exists w (log_file_path (module_dir w)) = inr true
   ∨ (path_exists w (log_file_path (module_dir w)) = inr false
      ∧ path_touch w (log_file_path (module_dir w)) = None)) →
  ∃ s,
    settings_module w environ = (warnings_due env, inr s)
    ∧ (∃ o, secret_key_block w env = (o, inr (SECRET_KEY s)))
    ∧ (∃ o, debug_block env = (o, inr (DEBUG s)))
    ∧ (∃ o, allowed_hosts_block env = (o, inr (ALLOWED_HOSTS s)))
    ∧ (∃ o, database_block w env = (o, inr (DATABASE_URL s, DATABASES s)))
    ∧ (∃ o, cors_block env
            = (o, inr (CORS_ALLOW_CREDENTIALS s, CORS_ALLOW_ALL_ORIGINS s,
                       CORS_ALLOWED_ORIGINS s)))
    ∧ (∃ o, logging_block w (module_dir w) (DEBUG s) = (o, inr (LOGGING s)))
    ∧ (EMAIL_BACKEND s = smtp_backend ∨ EMAIL_BACKEND s = console_backend)
    ∧ (EMAIL_PORT s = PyInt 587 ∨ ∃ port, EMAIL_PORT s = PyStr port).
Proof.
  intros Hl Hp Hm He.
  assert (normal_operation w env = true) as Hn.
  { unfold normal_operation, log_file_ready. rewrite Hm. simpl.
    rewrite andb_true_r. apply andb_true_iff. split.
    - destruct (database_url_parsed env) as [url|]; [|done].
      destruct (Hp url eq_refl) as (cfg & ->). done.
    - destruct He as [-> | [-> ->]]; done. }
  apply settings_returns_iff in Hn as (out & s & H).
  pose proof (settings_inr_out w env out s H) as ->.
  destruct (settings_inr_inv _ _ _ _ H)
    as (o1 & o2 & o4 & o5 & _ & E1 & E2 & E3 & E4 & E5 & E6 & Ee & _).
  destruct (settings_inr_email w env _ s H) as (_ & _ & Eport & _).
  exists s. rewrite settings_module_eq, Hl.
  split; [done|]. repeat split; eauto.
  - rewrite Ee. destruct (DEBUG s); simpl; auto.
  - rewrite Eport. unfold os_getenv.
    destruct (env !! lit "EMAIL_PORT"); eauto.
Qed.

Lemma settings_module_returns_when_its_calls_return_witness :
  ∃ s,
    settings_module demo_world env_production
    = (warnings_due env_production, inr s)
    ∧ (∃ o, secret_key_block demo_world env_production = (o, inr (SECRET_KEY s)))
    ∧ (∃ o, debug_block env_production = (o, inr (DEBUG s)))
    ∧ (∃ o, allowed_hosts_block env_production = (o, inr (ALLOWED_HOSTS s)))
    ∧ (∃ o, database_block demo_world env_production
            = (o, inr (DATABASE_URL s, DATABASES s)))
    ∧ (∃ o, cors_block env_production
            = (o, inr (CORS_ALLOW_CREDENTIALS s, CORS_ALLOW_ALL_ORIGINS s,
                       CORS_ALLOWED_ORIGINS s)))
    ∧ (∃ o, logging_block demo_world (module_dir demo_world) (DEBUG s)
            = (o, inr (LOGGING s)))
    ∧ (EMAIL_BACKEND s = smtp_backend ∨ EMAIL_BACKEND s = console_backend)
    ∧ (EMAIL_PORT s = PyInt 587 ∨ ∃ port, EMAIL_PORT s = PyStr port).
Proof.
  apply (settings_module_returns_when_its_calls_return
           demo_world env_production env_production).
  - reflexivity.
  - intros url _. eexists. reflexivity.
  - reflexivity.
  - right. split; reflexivity.
Defined.
